(** * TwitterService (dist/x/services.js): a shallow embedding

    The service is a singleton facade over the [twitter-api-v2] client.
    Every method is an [async] function whose whole body is one
    [try { ... } catch (error) { return error; }] block.

    The embedding follows the JavaScript text:
    - JavaScript values that cross the facade (remote responses, thrown
      errors, returned payloads) are trees of type [JS.value];
    - the typed arguments of the methods follow the declaration file
      (services.d.ts): [string], optional parameters as [option], [number]
      as [Z] (result counts and region ids are integers);
    - the process state (process.env, the static [instance] field, the
      service objects and their [client] field, the constructor log of
      [new TwitterApi], the remote-call log, console.error) is threaded
      through a state-and-exception monad [M];
    - the remote service is an oracle that answers each client call with a
      fulfilled or a rejected promise, given the history of calls. *)

From Stdlib Require Import ZArith String Ascii List Lia DecimalString.
From stdpp Require Import base option list gmap strings.

Local Open Scope Z_scope.

(** ** The JavaScript fragment the service relies on *)

Module JS.

(** Values.  Objects are property lists in enumeration order; [VError] is an
    instance of [Error] (or of a subclass named [name]). *)
#[warnings="-register-all"]
Inductive value : Type :=
| VUndefined
| VNull
| VBool (b : bool)
| VNumber (n : Z)
| VString (s : string)
| VArray (elems : list value)
| VObject (props : list (string * value))
| VError (name message : string).

(** [ToBoolean] on values: the test behind [if (x)], [!x] and [x || y]. *)
Definition ToBoolean (v : value) : bool :=
  match v with
  | VUndefined | VNull => false
  | VBool b => b
  | VNumber n => negb (n =? 0)
  | VString s => negb (String.eqb s EmptyString)
  | VArray _ | VObject _ | VError _ _ => true
  end.

(** The typed optional arguments as values: an omitted argument is
    [undefined]. *)
Definition string_value (s : option string) : value :=
  match s with
  | Some s => VString s
  | None => VUndefined
  end.

Definition number_value (n : option Z) : value :=
  match n with
  | Some n => VNumber n
  | None => VUndefined
  end.

(** Truthiness of the typed arguments and of environment entries. *)
Definition truthy_string (s : option string) : bool := ToBoolean (string_value s).

Definition truthy_number (n : option Z) : bool := ToBoolean (number_value n).

(** [a ?? b]: [b] when [a] is [undefined]. *)
Definition nullish_or {A} (a : option A) (b : A) : A :=
  match a with
  | Some x => x
  | None => b
  end.

(** [a || b] on an optional number: [b] when [a] is [undefined] or zero. *)
Definition number_or (a : option Z) (b : Z) : Z :=
  match a with
  | Some x => if truthy_number a then x else b
  | None => b
  end.

(** A default parameter value [f(x = d)] applies when the argument is
    [undefined] (omitted or passed as [undefined]). *)
Definition default_param {A} (a : option A) (d : A) : A :=
  match a with
  | Some x => x
  | None => d
  end.

(** Own-property lookup in a property list. *)
Fixpoint lookup_prop (k : string) (ps : list (string * value)) : value :=
  match ps with
  | [] => VUndefined
  | (k', v) :: ps' => if String.eqb k k' then v else lookup_prop k ps'
  end.

(** [String.prototype.includes]: some suffix of [s] starts with [pat]. *)
Fixpoint includes (s pat : string) : bool :=
  String.prefix pat s ||
  match s with
  | EmptyString => false
  | String _ s' => includes s' pat
  end.

(** The character class [\w]. *)
Definition is_word_char (c : ascii) : bool :=
  let n := nat_of_ascii c in
  ((48 <=? n) && (n <=? 57) || (65 <=? n) && (n <=? 90) ||
   (97 <=? n) && (n <=? 122) || (n =? 95))%nat.

(** Remove [pre] from the front of [s], if it is there. *)
Fixpoint strip_prefix (pre s : string) : option string :=
  match pre, s with
  | EmptyString, _ => Some s
  | String a pre', String b s' =>
      if Ascii.eqb a b then strip_prefix pre' s' else None
  | String _ _, EmptyString => None
  end.

(** The longest run of word characters at the front of [s], and the rest. *)
Fixpoint span_word (s : string) : string * string :=
  match s with
  | EmptyString => (EmptyString, EmptyString)
  | String c s' =>
      if is_word_char c
      then let (w, r) := span_word s' in (String c w, r)
      else (EmptyString, s)
  end.

(** [s.replace(/^data:image\/\w+;base64,/, '')].  The class [\w] does not
    contain [;], so the greedy run is the only candidate match. *)
Definition strip_data_uri (s : string) : string :=
  match strip_prefix "data:image/" s with
  | None => s
  | Some rest =>
      match span_word rest with
      | (EmptyString, _) => s
      | (String _ _, rest') =>
          match strip_prefix ";base64," rest' with
          | Some payload => payload
          | None => s
          end
      end
  end.

(** [Buffer.from(data, encoding)], kept symbolic: the service hands the
    buffer to the client without looking into it. *)
Inductive Buffer : Type :=
| Buffer_from (data : string) (encoding : string).

(** *** JSON.stringify *)

Definition dquote : ascii := ascii_of_nat 34.
Definition backslash : ascii := ascii_of_nat 92.

Definition hex_digit (n : nat) : ascii :=
  ascii_of_nat (if (n <? 10)%nat then 48 + n else 87 + n)%nat.

(** QuoteJSONString, one character at a time. *)
Definition escape_char (c : ascii) : string :=
  let n := nat_of_ascii c in
  if (n =? 34)%nat then String backslash (String dquote EmptyString)
  else if (n =? 92)%nat then "\\"
  else if (n =? 8)%nat then "\b"
  else if (n =? 9)%nat then "\t"
  else if (n =? 10)%nat then "\n"
  else if (n =? 12)%nat then "\f"
  else if (n =? 13)%nat then "\r"
  else if (n <? 32)%nat
       then "\u00" +:+
            String (hex_digit (n / 16)) (String (hex_digit (n mod 16)) EmptyString)
  else String c EmptyString.

Fixpoint escape (s : string) : string :=
  match s with
  | EmptyString => EmptyString
  | String c s' => escape_char c +:+ escape s'
  end.

Definition quote (s : string) : string :=
  String dquote (escape s +:+ String dquote EmptyString).

(** [Number.prototype.toString] on an integer (JavaScript switches to
    exponent notation from 10^21 on; counts and ids stay far below). *)
Definition Number_toString (n : Z) : string :=
  NilZero.string_of_int (Z.to_int n).

Fixpoint join (sep : string) (l : list string) : string :=
  match l with
  | [] => EmptyString
  | [x] => x
  | x :: l' => x +:+ sep +:+ join sep l'
  end.

(** [JSON.stringify v] for a tree value: [None] is [undefined].  In an
    array a hole prints as [null]; in an object it drops the property; an
    [Error] has no enumerable own property. *)
Fixpoint JSON_stringify (v : value) : option string :=
  match v with
  | VUndefined => None
  | VNull => Some "null"
  | VBool true => Some "true"
  | VBool false => Some "false"
  | VNumber n => Some (Number_toString n)
  | VString s => Some (quote s)
  | VArray elems =>
      Some ("[" +:+
            join "," (map (fun x => nullish_or (JSON_stringify x) "null") elems)
            +:+ "]")
  | VObject props =>
      let member (p : string * value) : list string :=
        match JSON_stringify (snd p) with
        | Some t => [quote (fst p) +:+ ":" +:+ t]
        | None => []
        end in
      Some ("{" +:+ join "," (flat_map member props) +:+ "}")
  | VError _ _ => Some "{}"
  end.

End JS.

Import JS.

(** ** The interface of the wrapped client (twitter-api-v2) *)

(** The members of [EUploadMimeType] that the service names. *)
Inductive EUploadMimeType : Type := Jpeg | Png | Gif | Webp.

(** A client object: [new TwitterApi({appKey, appSecret, accessToken,
    accessSecret})].  [client_id] is the object's identity: the number of
    clients constructed before it. *)
Record TwitterApi : Type := {
  client_id : nat;
  appKey : option string;
  appSecret : option string;
  accessToken : option string;
  accessSecret : option string;
}.

(** The client methods that the service calls, with the arguments it passes. *)
Inductive request : Type :=
| v2_userTimeline (userId : string) (exclude : list string)
                  (max_results : Z) (pagination_token : option string)
| v2_singleTweet (tweetId : string)
| v2_userMentionTimeline (userId : string) (max_results : Z)
                         (pagination_token : option string)
| v2_quote (text : string) (tweetId : string)
| v2_reply (text : string) (tweetId : string)
| v2_uploadMedia (buffer : Buffer) (media_type : EUploadMimeType)
                 (media_category : string)
| v2_tweet (status : value)
| v2_me
| v2_like (loggedUserId : value) (tweetId : string)
| v2_follow (loggedUserId : value) (targetUserId : string)
| v2_unfollow (loggedUserId : value) (targetUserId : string)
| v2_userByUsername (username : string)
| v2_search (query : string) (max_results : Z)
| v1_trendsAvailable
| v2_createList (name : string) (description : option string) (private : bool)
| v2_addListMember (listId userId : string)
| v2_removeListMember (listId userId : string)
| v2_listsOwned (userId : value).

(** How a promise settles. *)
Inductive settled : Type :=
| Fulfilled (v : value)
| Rejected (reason : value).

(** One logged client call: the client object it went through and the
    request. *)
Definition call : Type := TwitterApi * request.

(** The remote side: given the calls made so far, the answer to the next. *)
Definition oracle : Type := list call -> TwitterApi -> request -> settled.

(** ** Process state *)

(** A [TwitterService] object: its only field. *)
Record TwitterService : Type := {
  client : option TwitterApi;
}.

(** References to service objects are indices into [services]. *)
Definition ref : Type := nat.

Record world : Type := {
  process_env : gmap string string;
  TwitterService_instance : option ref;
  services : list TwitterService;
  constructed : list TwitterApi;
  calls : list call;
  console_error : list (string * value);
}.

Definition set_instance (r : ref) (w : world) : world :=
  {| process_env := process_env w;
     TwitterService_instance := Some r;
     services := services w;
     constructed := constructed w;
     calls := calls w;
     console_error := console_error w |}.

Definition set_services (s : list TwitterService) (w : world) : world :=
  {| process_env := process_env w;
     TwitterService_instance := TwitterService_instance w;
     services := s;
     constructed := constructed w;
     calls := calls w;
     console_error := console_error w |}.

Definition set_constructed (l : list TwitterApi) (w : world) : world :=
  {| process_env := process_env w;
     TwitterService_instance := TwitterService_instance w;
     services := services w;
     constructed := l;
     calls := calls w;
     console_error := console_error w |}.

Definition set_calls (l : list call) (w : world) : world :=
  {| process_env := process_env w;
     TwitterService_instance := TwitterService_instance w;
     services := services w;
     constructed := constructed w;
     calls := l;
     console_error := console_error w |}.

Definition set_console_error (l : list (string * value)) (w : world) : world :=
  {| process_env := process_env w;
     TwitterService_instance := TwitterService_instance w;
     services := services w;
     constructed := constructed w;
     calls := calls w;
     console_error := l |}.

Definition set_process_env (e : gmap string string) (w : world) : world :=
  {| process_env := e;
     TwitterService_instance := TwitterService_instance w;
     services := services w;
     constructed := constructed w;
     calls := calls w;
     console_error := console_error w |}.

(** The process at start-up, with environment [e]. *)
Definition boot (e : gmap string string) : world :=
  {| process_env := e;
     TwitterService_instance := None;
     services := [];
     constructed := [];
     calls := [];
     console_error := [] |}.

(** ** Statements that may throw *)

Inductive completion (A : Type) : Type :=
| Normal (a : A)
| Throw (e : value).
Arguments Normal {A} a.
Arguments Throw {A} e.

Definition M (A : Type) : Type := world -> completion A * world.

Definition ret {A} (a : A) : M A := fun w => (Normal a, w).

Definition throw {A} (e : value) : M A := fun w => (Throw e, w).

Definition bind {A B} (m : M A) (k : A -> M B) : M B :=
  fun w =>
    match m w with
    | (Normal a, w') => k a w'
    | (Throw e, w') => (Throw e, w')
    end.

Notation "x <- m ;; k" := (bind m (fun x => k))
  (at level 100, m at next level, right associativity).
Notation "m ;;; k" := (bind m (fun _ => k))
  (at level 100, right associativity).

(** [try { body } catch (error) { handler }] *)
Definition try_catch {A} (body : M A) (handler : value -> M A) : M A :=
  fun w =>
    match body w with
    | (Normal a, w') => (Normal a, w')
    | (Throw e, w') => handler e w'
    end.

(** An [async] function: a [return] fulfils its promise, an uncaught
    [throw] rejects it. *)
Definition async (body : M value) (w : world) : settled * world :=
  match body w with
  | (Normal v, w') => (Fulfilled v, w')
  | (Throw e, w') => (Rejected e, w')
  end.

(** [new Error(message)] and the engine's [TypeError] for a property read
    on [undefined] or [null] (the message is V8's). *)
Definition Error (message : string) : value := VError "Error" message.

Definition show_nullish (v : value) : string :=
  match v with
  | VNull => "null"
  | _ => "undefined"
  end.

Definition TypeError_read (v : value) (k : string) : value :=
  VError "TypeError"
    ("Cannot read properties of " +:+ show_nullish v +:+
     " (reading '" +:+ k +:+ "')").

(** [v.k] for the property names the service reads ([data], [id],
    [liked]): none of them is a built-in property of a primitive, an array
    or an error. *)
Definition get_prop (v : value) (k : string) : completion value :=
  match v with
  | VUndefined | VNull => Throw (TypeError_read v k)
  | VObject props => Normal (lookup_prop k props)
  | _ => Normal VUndefined
  end.

Definition get (v : value) (k : string) : M value :=
  fun w => (get_prop v k, w).

(** [process.env.NAME] *)
Definition getenv (name : string) : M (option string) :=
  fun w => (Normal (process_env w !! name), w).

(** [console.error(label, v)] *)
Definition console_error_log (label : string) (v : value) : M unit :=
  fun w => (Normal tt, set_console_error (console_error w ++ [(label, v)]) w).

(** ** class TwitterService *)

Section Service.

(** The remote side answering the client's calls. *)
Variable remote : oracle.

(** [await client.m(args)]: the call is logged; a rejected promise throws
    its reason at the [await]. *)
Definition await_call (c : TwitterApi) (r : request) : M value :=
  fun w =>
    let w' := set_calls (calls w ++ [(c, r)]) w in
    match remote (calls w) c r with
    | Fulfilled v => (Normal v, w')
    | Rejected e => (Throw e, w')
    end.

(** [new TwitterService()]: the constructor sets [this.client = null]. *)
Definition new_TwitterService : M ref :=
  fun w =>
    (Normal (length (services w)),
     set_services (services w ++ [{| client := None |}]) w).

(** [new TwitterApi({...})] *)
Definition new_TwitterApi (key secret token token_secret : option string)
  : M TwitterApi :=
  fun w =>
    let c := {| client_id := length (constructed w);
                appKey := key; appSecret := secret;
                accessToken := token; accessSecret := token_secret |} in
    (Normal c, set_constructed (constructed w ++ [c]) w).

(** [this.client] and [this.client = c] *)
Definition read_client (this : ref) : M (option TwitterApi) :=
  fun w =>
    match services w !! this with
    | Some s => (Normal (client s), w)
    | None => (Throw (TypeError_read VUndefined "client"), w)
    end.

Definition write_client (this : ref) (c : TwitterApi) : M unit :=
  fun w =>
    (Normal tt, set_services (<[this := {| client := Some c |}]> (services w)) w).

(** [static getInstance()] *)
Definition getInstance : M ref :=
  fun w =>
    match TwitterService_instance w with
    | None =>
        (r <- new_TwitterService ;;
         (fun w' => (Normal r, set_instance r w'))) w
    | Some r => (Normal r, w)
    end.

(** [getClient()] *)
Definition getClient (this : ref) : M TwitterApi :=
  c <- read_client this ;;
  match c with
  | None =>
      key <- getenv "TWITTER_API_KEY" ;;
      secret <- getenv "TWITTER_API_KEY_SECRET" ;;
      token <- getenv "TWITTER_ACCESS_TOKEN" ;;
      token_secret <- getenv "TWITTER_ACCESS_TOKEN_SECRET" ;;
      if negb (truthy_string key) || negb (truthy_string secret) ||
         negb (truthy_string token) || negb (truthy_string token_secret)
      then throw (Error
        "Twitter credentials are not properly configured in environment variables")
      else
        c' <- new_TwitterApi key secret token token_secret ;;
        write_client this c' ;;;
        ret c'
  | Some c => ret c
  end.

(** The catch block shared by every method but [getUserTweets]. *)
Definition return_error (error : value) : M value := ret error.

Definition JSON_stringify_value (v : value) : value :=
  match JSON_stringify v with
  | Some s => VString s
  | None => VUndefined
  end.

Definition getUserTweets (this : ref) (userId : string)
    (paginationToken : option string) (exclude : option (list string))
    (maxResults : option Z) : world -> settled * world :=
  async (try_catch
    (client <- getClient this ;;
     tweets <- await_call client
       (v2_userTimeline userId (nullish_or exclude ["retweets"; "replies"])
                        50 paginationToken) ;;
     data <- get tweets "data" ;;
     ret (JSON_stringify_value
            (VObject [("result", data);
                      ("message", VString "Tweets fetched successfully")])))
    (fun error =>
       console_error_log "Error fetching tweets:" error ;;;
       ret error)).

Definition getTweet (this : ref) (tweetId : string) : world -> settled * world :=
  async (try_catch
    (client <- getClient this ;;
     result <- await_call client (v2_singleTweet tweetId) ;;
     get result "data")
    return_error).

Definition getUserMentionTimeline (this : ref) (userId : string)
    (paginationToken : option string) (maxResults : option Z)
  : world -> settled * world :=
  async (try_catch
    (client <- getClient this ;;
     mentions <- await_call client
       (v2_userMentionTimeline userId (number_or maxResults 10) paginationToken) ;;
     get mentions "data")
    return_error).

Definition quoteAndComment (this : ref) (tweetId replyText : string)
  : world -> settled * world :=
  async (try_catch
    (client <- getClient this ;;
     quote <- await_call client (v2_quote replyText tweetId) ;;
     get quote "data")
    return_error).

Definition replyToTweet (this : ref) (tweetId replyText : string)
  : world -> settled * world :=
  async (try_catch
    (client <- getClient this ;;
     reply <- await_call client (v2_reply replyText tweetId) ;;
     get reply "data")
    return_error).

(** The image type chosen in [postTweet]. *)
Definition mimeType (imageBase64 : string) : EUploadMimeType :=
  if includes imageBase64 "data:image/png" then Png
  else if includes imageBase64 "data:image/gif" then Gif
  else if includes imageBase64 "data:image/webp" then Webp
  else Jpeg.

(** [if (imageBase64)] is false for an omitted argument and for the empty
    string: both take the [else] block. *)
Definition postTweet (this : ref) (text : string) (imageBase64 : option string)
  : world -> settled * world :=
  async (try_catch
    (client <- getClient this ;;
     match imageBase64 with
     | Some image =>
         if truthy_string imageBase64 then
           let buffer := Buffer_from (strip_data_uri image) "base64" in
           mediaId <- await_call client
             (v2_uploadMedia buffer (mimeType image) "tweet_image") ;;
           tweet <- await_call client
             (v2_tweet (VObject [("text", VString text);
                                 ("media", VObject [("media_ids", VArray [mediaId])])])) ;;
           get tweet "data"
         else
           tweet <- await_call client (v2_tweet (VString text)) ;;
           get tweet "data"
     | None =>
         tweet <- await_call client (v2_tweet (VString text)) ;;
         get tweet "data"
     end)
    return_error).

Definition likeTweet (this : ref) (tweetId : string) : world -> settled * world :=
  async (try_catch
    (client <- getClient this ;;
     me <- await_call client v2_me ;;
     me_data <- get me "data" ;;
     me_id <- get me_data "id" ;;
     result <- await_call client (v2_like me_id tweetId) ;;
     result_data <- get result "data" ;;
     liked <- get result_data "liked" ;;
     ret (VObject [("liked", liked)]))
    return_error).

Definition followUser (this : ref) (targetUserId : string)
  : world -> settled * world :=
  async (try_catch
    (client <- getClient this ;;
     me <- await_call client v2_me ;;
     me_data <- get me "data" ;;
     me_id <- get me_data "id" ;;
     result <- await_call client (v2_follow me_id targetUserId) ;;
     get result "data")
    return_error).

Definition unfollowUser (this : ref) (targetUserId : string)
  : world -> settled * world :=
  async (try_catch
    (client <- getClient this ;;
     me <- await_call client v2_me ;;
     me_data <- get me "data" ;;
     me_id <- get me_data "id" ;;
     result <- await_call client (v2_unfollow me_id targetUserId) ;;
     get result "data")
    return_error).

Definition getUserByUsername (this : ref) (username : string)
  : world -> settled * world :=
  async (try_catch
    (client <- getClient this ;;
     result <- await_call client (v2_userByUsername username) ;;
     get result "data")
    return_error).

Definition searchTweets (this : ref) (query : string) (maxResults : option Z)
  : world -> settled * world :=
  let maxResults := default_param maxResults 10 in
  async (try_catch
    (client <- getClient this ;;
     result <- await_call client (v2_search query maxResults) ;;
     result_data <- get result "data" ;;
     get result_data "data")
    return_error).

Definition getTrendingTopics (this : ref) (woeid : option Z)
  : world -> settled * world :=
  let woeid := default_param woeid 1 in
  async (try_catch
    (client <- getClient this ;;
     result <- await_call client v1_trendsAvailable ;;
     ret result)
    return_error).

Definition createList (this : ref) (name : string) (description : option string)
    (isPrivate : option bool) : world -> settled * world :=
  let isPrivate := default_param isPrivate false in
  async (try_catch
    (client <- getClient this ;;
     result <- await_call client (v2_createList name description isPrivate) ;;
     get result "data")
    return_error).

Definition addListMember (this : ref) (listId userId : string)
  : world -> settled * world :=
  async (try_catch
    (client <- getClient this ;;
     result <- await_call client (v2_addListMember listId userId) ;;
     get result "data")
    return_error).

Definition removeListMember (this : ref) (listId userId : string)
  : world -> settled * world :=
  async (try_catch
    (client <- getClient this ;;
     result <- await_call client (v2_removeListMember listId userId) ;;
     get result "data")
    return_error).

Definition getOwnedLists (this : ref) : world -> settled * world :=
  async (try_catch
    (client <- getClient this ;;
     me <- await_call client v2_me ;;
     me_data <- get me "data" ;;
     me_id <- get me_data "id" ;;
     result <- await_call client (v2_listsOwned me_id) ;;
     result_data <- get result "data" ;;
     get result_data "data")
    return_error).

(** *** Method calls as data *)

(** One call of a method of the service, with its arguments. *)
Inductive invocation : Type :=
| GetUserTweets (userId : string) (paginationToken : option string)
                (exclude : option (list string)) (maxResults : option Z)
| GetTweet (tweetId : string)
| GetUserMentionTimeline (userId : string) (paginationToken : option string)
                         (maxResults : option Z)
| QuoteAndComment (tweetId replyText : string)
| ReplyToTweet (tweetId replyText : string)
| PostTweet (text : string) (imageBase64 : option string)
| LikeTweet (tweetId : string)
| FollowUser (targetUserId : string)
| UnfollowUser (targetUserId : string)
| GetUserByUsername (username : string)
| SearchTweets (query : string) (maxResults : option Z)
| GetTrendingTopics (woeid : option Z)
| CreateList (name : string) (description : option string)
             (isPrivate : option bool)
| AddListMember (listId userId : string)
| RemoveListMember (listId userId : string)
| GetOwnedLists.

Definition invoke (this : ref) (i : invocation) : world -> settled * world :=
  match i with
  | GetUserTweets u p e m => getUserTweets this u p e m
  | GetTweet t => getTweet this t
  | GetUserMentionTimeline u p m => getUserMentionTimeline this u p m
  | QuoteAndComment t r => quoteAndComment this t r
  | ReplyToTweet t r => replyToTweet this t r
  | PostTweet t img => postTweet this t img
  | LikeTweet t => likeTweet this t
  | FollowUser u => followUser this u
  | UnfollowUser u => unfollowUser this u
  | GetUserByUsername u => getUserByUsername this u
  | SearchTweets q m => searchTweets this q m
  | GetTrendingTopics w => getTrendingTopics this w
  | CreateList n d p => createList this n d p
  | AddListMember l u => addListMember this l u
  | RemoveListMember l u => removeListMember this l u
  | GetOwnedLists => getOwnedLists this
  end.

(** [TwitterService.getInstance().method(args)], the way callers use the
    service. *)
Definition serve (i : invocation) (w : world) : settled * world :=
  match getInstance w with
  | (Normal this, w') => invoke this i w'
  | (Throw e, w') => (Rejected e, w')
  end.

(** A caller's session: a sequence of such calls.  The result lists the
    service object and the settled promise of each call. *)
Fixpoint session (todo : list invocation) (w : world)
  : list (ref * settled) * world :=
  match todo with
  | [] => ([], w)
  | i :: todo' =>
      match getInstance w with
      | (Normal this, w1) =>
          let (r, w2) := invoke this i w1 in
          let (rs, w3) := session todo' w2 in
          ((this, r) :: rs, w3)
      | (Throw e, w1) => ([], w1)
      end
  end.

End Service.

(** ** Sample environments, remote sides and responses *)

Definition credentials : gmap string string :=
  <["TWITTER_API_KEY" := "key"]>
  (<["TWITTER_API_KEY_SECRET" := "key-secret"]>
  (<["TWITTER_ACCESS_TOKEN" := "token"]>
  (<["TWITTER_ACCESS_TOKEN_SECRET" := "token-secret"]> ∅))).

(** The access token secret is missing. *)
Definition three_credentials : gmap string string :=
  delete "TWITTER_ACCESS_TOKEN_SECRET" credentials.

Definition sample_tweet : value :=
  VObject [("id", VString "1"); ("text", VString "hello")].

Definition sample_response (r : request) : value :=
  match r with
  | v2_me => VObject [("data", VObject [("id", VString "42")])]
  | v2_like _ _ => VObject [("data", VObject [("liked", VBool true)])]
  | v2_uploadMedia _ _ _ => VString "media-7"
  | v2_userTimeline _ _ _ _ | v2_userMentionTimeline _ _ _ =>
      VObject [("data", VArray [sample_tweet])]
  | v2_search _ _ | v2_listsOwned _ =>
      VObject [("data", VObject [("data", VArray [sample_tweet])])]
  | _ => VObject [("data", sample_tweet)]
  end.

(** A remote side that fulfils every call. *)
Definition remote_up : oracle := fun _ _ r => Fulfilled (sample_response r).

Definition request_failed : value := VError "ApiRequestError" "Request failed".

(** A remote side that rejects every call. *)
Definition remote_down : oracle := fun _ _ _ => Rejected request_failed.

(** The configuration error of [getClient]. *)
Definition configuration_error : value :=
  Error "Twitter credentials are not properly configured in environment variables".

(** The four credentials are present: set and not empty. *)
Definition configured (e : gmap string string) : bool :=
  truthy_string (e !! "TWITTER_API_KEY") &&
  truthy_string (e !! "TWITTER_API_KEY_SECRET") &&
  truthy_string (e !! "TWITTER_ACCESS_TOKEN") &&
  truthy_string (e !! "TWITTER_ACCESS_TOKEN_SECRET").

(** The process once [getInstance] has run, before any method call. *)
Definition started (e : gmap string string) : world :=
  snd (getInstance (boot e)).

(** [s] has an occurrence of [pat]. *)
Definition occurs (pat s : string) : Prop :=
  exists a b, s = a +:+ pat +:+ b.

(** The client that the first [getClient] builds from environment [e]. *)
Definition first_client (e : gmap string string) : TwitterApi :=
  {| client_id := 0;
     appKey := e !! "TWITTER_API_KEY";
     appSecret := e !! "TWITTER_API_KEY_SECRET";
     accessToken := e !! "TWITTER_ACCESS_TOKEN";
     accessSecret := e !! "TWITTER_ACCESS_TOKEN_SECRET" |}.

(** The methods that make a preliminary client call ([v2.me], or
    [v2.uploadMedia] when posting with an image) before the call they are
    named after. *)
Definition two_step (i : invocation) : bool :=
  match i with
  | LikeTweet _ | FollowUser _ | UnfollowUser _ | GetOwnedLists => true
  | PostTweet _ image => truthy_string image
  | _ => false
  end.

(** Whether the answer [v] of the preliminary call lets the method go on:
    [me.data.id] must be readable; an uploaded media id is used as it is. *)
Definition goes_on (i : invocation) (v : value) : bool :=
  match i with
  | PostTweet _ _ => true
  | _ =>
      match get_prop v "data" with
      | Normal d =>
          match get_prop d "id" with
          | Normal _ => true
          | Throw _ => false
          end
      | Throw _ => false
      end
  end.

(** The preliminary call of a two-step method. *)
Definition preliminary (i : invocation) : request :=
  match i with
  | PostTweet _ (Some image) =>
      v2_uploadMedia (Buffer_from (strip_data_uri image) "base64")
                     (mimeType image) "tweet_image"
  | _ => v2_me
  end.

(** The number of client calls of one invocation, given how the remote side
    settles the preliminary call. *)
Definition calls_made (i : invocation) (first : settled) : nat :=
  if two_step i then
    match first with
    | Fulfilled v => if goes_on i v then 2%nat else 1%nat
    | Rejected _ => 1%nat
    end
  else 1%nat.



(** A png data URI after a leading space, and a gif data URI whose tail
    mentions the png token. *)
Definition padded_png_image : string := " data:image/png;base64,iVBORw0KGgo=".
Definition gif_then_png_image : string :=
  "data:image/gif;base64,R0lGODlh data:image/png".

(** The media types of the uploads in a call log. *)
Definition upload_types (l : list call) : list EUploadMimeType :=
  flat_map (fun x : call =>
              match x.2 with
              | v2_uploadMedia _ m _ => [m]
              | _ => []
              end) l.

(** Every character of [s] passes the test [p]. *)
Fixpoint all_chars (p : ascii -> bool) (s : string) : bool :=
  match s with
  | EmptyString => true
  | String c s' => p c && all_chars p s'
  end.

(** The base64 alphabet with its padding character. *)
Definition is_base64_char (c : ascii) : bool :=
  let n := nat_of_ascii c in
  ((48 <=? n) && (n <=? 57) || (65 <=? n) && (n <=? 90) ||
   (97 <=? n) && (n <=? 122) || (n =? 43) || (n =? 47) || (n =? 61))%nat.

Definition not_colon (c : ascii) : bool := negb (Ascii.eqb c ":"%char).

(** A data URI for an image: [data:image/<subtype>;base64,<payload>]. *)
Definition data_uri (subtype payload : string) : string :=
  "data:image/" +:+ subtype +:+ ";base64," +:+ payload.


(** The methods that start with [v2.me], and the call each of them makes
    with the user id read from its answer. *)
Definition asks_me (i : invocation) : bool :=
  match i with
  | LikeTweet _ | FollowUser _ | UnfollowUser _ | GetOwnedLists => true
  | _ => false
  end.

Definition action (i : invocation) (id : value) : request :=
  match i with
  | LikeTweet t => v2_like id t
  | FollowUser u => v2_follow id u
  | UnfollowUser u => v2_unfollow id u
  | _ => v2_listsOwned id
  end.

(** The status object of a tweet with one attached media id. *)
Definition media_status (text : string) (mediaId : value) : value :=
  VObject [("text", VString text);
           ("media", VObject [("media_ids", VArray [mediaId])])].

(** The second call of a two-step method, given the answer [v] of its
    preliminary call: the call the method is named after, with the user id
    read from [v.data.id], or [v2.tweet] with the uploaded media id [v].
    There is none when the id cannot be read. *)
Definition follow_up (i : invocation) (v : value) : option request :=
  match i with
  | PostTweet text _ => Some (v2_tweet (media_status text v))
  | _ =>
      match get_prop v "data" with
      | Normal d =>
          match get_prop d "id" with
          | Normal id => Some (action i id)
          | Throw _ => None
          end
      | Throw _ => None
      end
  end.

(** A remote side whose uploads fail. *)
Definition remote_upload_fails : oracle :=
  fun _ _ r =>
    match r with
    | v2_uploadMedia _ _ _ => Rejected request_failed
    | _ => Fulfilled (sample_response r)
    end.


(** A remote side that fulfils every call with an empty object. *)
Definition remote_empty : oracle := fun _ _ _ => Fulfilled (VObject []).

(** * Properties *)

(** ** Strings *)

Lemma strip_prefix_Some pre s rest :
  strip_prefix pre s = Some rest <-> s = pre +:+ rest.
Proof.
  revert s. induction pre as [|a pre IH]; intros s; simpl.
  - split; [intros [= ->]; reflexivity | intros ->; reflexivity].
  - destruct s as [|b s].
    + split; [discriminate | intros [=]].
    + destruct (Ascii.eqb a b) eqn:E.
      * apply Ascii.eqb_eq in E as ->. rewrite IH.
        split; [intros ->; reflexivity | intros [= ->]; reflexivity].
      * apply Ascii.eqb_neq in E.
        split; [discriminate | intros [= -> _]; congruence].
Qed.

Lemma prefix_app pre s :
  String.prefix pre s = true <-> exists rest, s = pre +:+ rest.
Proof.
  revert s. induction pre as [|a pre IH]; intros s; simpl.
  - split; [intros _; exists s; reflexivity | intros _; destruct s; reflexivity].
  - destruct s as [|b s].
    + split; [discriminate | intros [rest [=]]].
    + cbn [String.prefix]. destruct (ascii_dec a b) as [->|Hne].
      * rewrite IH. split; intros [rest Hr]; exists rest.
        -- rewrite Hr. reflexivity.
        -- injection Hr as ->. reflexivity.
      * split; [discriminate | intros [rest [= -> _]]; congruence].
Qed.

Lemma includes_occurs s pat : includes s pat = true <-> occurs pat s.
Proof.
  induction s as [|c s IH]; cbn [includes].
  - rewrite orb_false_r, prefix_app. split.
    + intros [rest Hr]. exists EmptyString, rest. exact Hr.
    + intros [a [b Hab]]. destruct a; [|discriminate]. exists b. exact Hab.
  - rewrite orb_true_iff, prefix_app, IH. split.
    + intros [[rest Hr] | [a [b Hab]]].
      * exists EmptyString, rest. exact Hr.
      * exists (String c a), b. simpl. rewrite Hab. reflexivity.
    + intros [a [b Hab]]. destruct a as [|c' a].
      * left. exists b. exact Hab.
      * right. injection Hab as -> Hs. exists a, b. exact Hs.
Qed.

Lemma includes_not_occurs s pat : includes s pat = false <-> ~ occurs pat s.
Proof.
  rewrite <- includes_occurs. destruct (includes s pat); split; congruence.
Qed.

Lemma prefix_includes pre s :
  String.prefix pre s = true -> includes s pre = true.
Proof.
  intros H. apply includes_occurs. apply prefix_app in H as [rest ->].
  exists EmptyString, rest. reflexivity.
Qed.

(** ** JSON text *)

Lemma length_append (a b : string) :
  String.length (a +:+ b) = (String.length a + String.length b)%nat.
Proof.
  induction a as [|c a IH]; [reflexivity|].
  change (String c a +:+ b) with (String c (a +:+ b)).
  cbn [String.length]. rewrite IH. reflexivity.
Qed.

Lemma escape_char_length c : (1 <= String.length (escape_char c))%nat.
Proof.
  unfold escape_char.
  repeat match goal with
         | |- context [if ?b then _ else _] => destruct b
         end; rewrite ?length_append; cbn [String.length]; lia.
Qed.

Lemma escape_length s : (String.length s <= String.length (escape s))%nat.
Proof.
  induction s as [|c s IH]; cbn [escape String.length]; [lia|].
  rewrite length_append. pose proof (escape_char_length c). lia.
Qed.

Lemma quote_length s : (String.length s < String.length (quote s))%nat.
Proof.
  unfold quote. cbn [String.length]. rewrite length_append.
  pose proof (escape_length s). cbn [String.length]. lia.
Qed.

(** The JSON text of the envelope built by [getUserTweets] is longer than a
    payload string it wraps. *)
Lemma envelope_text_longer s message text :
  JSON_stringify (VObject [("result", VString s); ("message", VString message)])
    = Some text ->
  (String.length s < String.length text)%nat.
Proof.
  cbn [JSON_stringify flat_map snd fst app join]. intros [= <-].
  rewrite !length_append. pose proof (quote_length s). lia.
Qed.

(** ** getInstance and getClient *)

Lemma credentials_test (a b c d : bool) :
  negb a || negb b || negb c || negb d = negb (a && b && c && d).
Proof. destruct a, b, c, d; reflexivity. Qed.

(** The client is already there: [getClient] returns it and changes
    nothing. *)
Lemma getClient_ready this c w :
  services w !! this = Some {| client := Some c |} ->
  getClient this w = (Normal c, w).
Proof.
  intros H. unfold getClient, bind, read_client. rewrite H. reflexivity.
Qed.

(** No client yet and a credential missing: [getClient] throws and changes
    nothing. *)
Lemma getClient_unconfigured this w :
  services w !! this = Some {| client := None |} ->
  configured (process_env w) = false ->
  getClient this w = (Throw configuration_error, w).
Proof.
  intros H Hc. unfold getClient, bind, read_client, getenv. rewrite H.
  cbn [client]. rewrite credentials_test.
  unfold configured in Hc. rewrite Hc. reflexivity.
Qed.

(** No client yet and the credentials present: [getClient] constructs one
    client, stores it in the service object and returns it. *)
Lemma getClient_first this w :
  services w !! this = Some {| client := None |} ->
  configured (process_env w) = true ->
  let c := {| client_id := length (constructed w);
              appKey := process_env w !! "TWITTER_API_KEY";
              appSecret := process_env w !! "TWITTER_API_KEY_SECRET";
              accessToken := process_env w !! "TWITTER_ACCESS_TOKEN";
              accessSecret := process_env w !! "TWITTER_ACCESS_TOKEN_SECRET" |} in
  getClient this w =
    (Normal c,
     set_services (<[this := {| client := Some c |}]> (services w))
       (set_constructed (constructed w ++ [c]) w)).
Proof.
  intros H Hc. unfold getClient, bind, read_client, getenv. rewrite H.
  cbn [client]. rewrite credentials_test.
  unfold configured in Hc. rewrite Hc. reflexivity.
Qed.

(** What [getClient] leaves alone, and what it returns. *)
Lemma getClient_frame this w r w1 :
  getClient this w = (r, w1) ->
  calls w1 = calls w /\ process_env w1 = process_env w /\
  TwitterService_instance w1 = TwitterService_instance w /\
  console_error w1 = console_error w /\
  length (services w1) = length (services w) /\
  match r with
  | Normal c =>
      services w1 !! this = Some {| client := Some c |} /\
      (w1 = w \/
       services w !! this = Some {| client := None |} /\
       configured (process_env w) = true /\
       constructed w1 = constructed w ++ [c])
  | Throw e =>
      w1 = w /\
      (services w !! this = None \/
       services w !! this = Some {| client := None |} /\
       configured (process_env w) = false /\ e = configuration_error)
  end.
Proof.
  intros H. destruct (services w !! this) as [[[c|]]|] eqn:Hs.
  - rewrite (getClient_ready _ _ _ Hs) in H. injection H as <- <-.
    repeat split; auto.
  - destruct (configured (process_env w)) eqn:Hc.
    + rewrite (getClient_first _ _ Hs Hc) in H. injection H as <- <-.
      cbn. rewrite length_insert. repeat split; auto.
      apply list_lookup_insert_eq. eapply lookup_lt_Some; eauto.
    + rewrite (getClient_unconfigured _ _ Hs Hc) in H. injection H as <- <-.
      repeat split; auto.
  - unfold getClient, bind, read_client in H. rewrite Hs in H.
    injection H as <- <-. repeat split; auto.
Qed.

(** ** The methods *)

(** Run the body of a method after [getClient], one statement at a time:
    each remote answer and each property read is split into its cases. *)
Ltac open_method Hgc :=
  cbv [invoke]; cbv [getUserTweets getTweet getUserMentionTimeline
       quoteAndComment replyToTweet postTweet likeTweet followUser
       unfollowUser getUserByUsername searchTweets getTrendingTopics createList
       addListMember removeListMember getOwnedLists
       async try_catch bind return_error ret console_error_log];
  rewrite Hgc; cbv beta iota.

Ltac run_step :=
  match goal with
  | |- context [await_call ?rm ?c ?r ?w] =>
      unfold await_call at 1;
      let E := fresh "Hanswer" in
      destruct (rm (calls w) c r) eqn:E; cbv beta iota zeta
  | |- context [get ?v ?k ?w] =>
      unfold get at 1;
      let E := fresh "Hread" in
      destruct (get_prop v k) eqn:E; cbv beta iota zeta
  | |- context [match ?img with Some _ => _ | None => _ end] =>
      is_var img; destruct img; cbv beta iota zeta
  | |- context [truthy_string (Some ?s)] =>
      let E := fresh "Himage" in
      destruct (truthy_string (Some s)) eqn:E; cbv beta iota zeta
  end.

Ltac run_method Hgc := open_method Hgc; repeat run_step.


Section Properties.

Variable remote : oracle.


(** A method whose [getClient] throws makes no call and returns what was
    thrown. *)
Lemma invoke_without_client this i w e w1 :
  getClient this w = (Throw e, w1) ->
  exists w', invoke remote this i w = (Fulfilled e, w') /\
    calls w' = calls w /\ constructed w' = constructed w /\
    services w' = services w /\ process_env w' = process_env w /\
    TwitterService_instance w' = TwitterService_instance w.
Proof.
  intros Hgc. destruct (getClient_frame _ _ _ _ Hgc) as (_ & _ & _ & _ & _ & -> & _).
  destruct i; run_method Hgc; eexists; split; try reflexivity; auto.
Qed.

(** A method whose [getClient] returns [c] talks to [c] only, and touches
    nothing but the call log and the console. *)
Lemma invoke_with_client this i w c w1 :
  getClient this w = (Normal c, w1) ->
  exists out w' new, invoke remote this i w = (out, w') /\
    calls w' = calls w ++ new /\
    services w' = services w1 /\ constructed w' = constructed w1 /\
    process_env w' = process_env w1 /\
    TwitterService_instance w' = TwitterService_instance w1 /\
    Forall (fun x => x.1 = c) new /\
    length new = calls_made i (remote (calls w) c (preliminary i)) /\
    (two_step i = true -> new !! 0%nat = Some (c, preliminary i)).
Proof.
  intros Hgc. destruct (getClient_frame _ _ _ _ Hgc) as (Hfr & _).
  destruct i; run_method Hgc; rewrite ?Hfr in *;
    eexists; eexists; eexists;
    (split; [reflexivity|]); cbn; rewrite ?Hfr, <- ?app_assoc;
    (split; [reflexivity|]); repeat (split; [reflexivity|]);
    (split; [repeat constructor|]); cbv [calls_made two_step preliminary goes_on];
    rewrite ?Hanswer, ?Hread, ?Hread0, ?Himage; cbn;
    (split; [reflexivity
            | first [discriminate | reflexivity | intros; cbn in *; congruence]]).
Qed.

(** Once the singleton has its client, a session leaves both in place and
    routes every call through that client. *)
Lemma session_with_client todo : forall w r c rs w',
  TwitterService_instance w = Some r ->
  services w !! r = Some {| client := Some c |} ->
  session remote todo w = (rs, w') ->
  services w' = services w /\ constructed w' = constructed w /\
  TwitterService_instance w' = Some r /\
  (exists new, calls w' = calls w ++ new /\ Forall (fun x => x.1 = c) new) /\
  Forall (fun y => y.1 = r) rs /\ length rs = length todo.
Proof.
  induction todo as [|i todo IH]; intros w r c rs w' Hi Hs Hrun; cbn in Hrun.
  - injection Hrun as <- <-. repeat split; auto.
    exists []. rewrite app_nil_r. auto.
  - unfold getInstance in Hrun. rewrite Hi in Hrun.
    destruct (invoke_with_client r i w c w (getClient_ready _ _ _ Hs))
      as (out & w2 & new & Hinv & Hcalls & Hsv & Hcon & _ & Hin & Hvia & _).
    rewrite Hinv in Hrun.
    destruct (session remote todo w2) as [rs' w3] eqn:Hrest.
    injection Hrun as <- <-.
    assert (Hs2 : services w2 !! r = Some {| client := Some c |})
      by (rewrite Hsv; exact Hs).
    rewrite Hi in Hin.
    destruct (IH w2 r c rs' w3 Hin Hs2 Hrest)
      as (Hsv' & Hcon' & Hi' & (new' & Hcalls' & Hvia') & Hrs & Hlen).
    repeat split.
    + congruence.
    + congruence.
    + exact Hi'.
    + exists (new ++ new'). split.
      * rewrite Hcalls', Hcalls, app_assoc. reflexivity.
      * apply Forall_app. auto.
    + constructor; auto.
    + cbn. rewrite Hlen. reflexivity.
Qed.

(** C1 (amended). With no client yet and a credential absent or empty,
    every method makes no remote call and constructs no client; the
    configuration error thrown by [getClient] is caught by the method's
    own try/catch and is the value its promise is fulfilled with. *)
Theorem configuration_error_is_returned this i w :
  services w !! this = Some {| client := None |} ->
  configured (process_env w) = false ->
  exists w', invoke remote this i w = (Fulfilled configuration_error, w') /\
    calls w' = calls w /\ constructed w' = constructed w /\
    services w' = services w.
Proof.
  intros Hs Hc.
  destruct (invoke_without_client this i w _ _ (getClient_unconfigured _ _ Hs Hc))
    as (w' & Hinv & Hcalls & Hcon & Hsv & _).
  exists w'. auto.
Qed.

(** C3. With the four credentials present, a session of one or more method
    calls on a fresh process constructs exactly one client, the one built
    by the first call; it stays in the singleton's [client] field, every
    client call of the session goes through it, and [getInstance] hands
    out the same service object each time.  In any state, a method called
    on a service that has its client leaves the field and the list of
    constructed clients as they are. *)
Theorem one_client_for_all_calls e i todo rs w' :
  configured e = true ->
  session remote (i :: todo) (boot e) = (rs, w') ->
  (constructed w' = [first_client e] /\
   services w' = [{| client := Some (first_client e) |}] /\
   TwitterService_instance w' = Some 0%nat /\
   Forall (fun x => x.1 = first_client e) (calls w') /\
   Forall (fun y => y.1 = 0%nat) rs /\
   length rs = length (i :: todo)) /\
  (forall w this c j,
     services w !! this = Some {| client := Some c |} ->
     services (snd (invoke remote this j w)) = services w /\
     constructed (snd (invoke remote this j w)) = constructed w).
Proof.
  intros He Hrun. split.
  - cbn [session] in Hrun.
    change (getInstance (boot e)) with (Normal 0%nat, started e) in Hrun.
    cbv iota in Hrun.
    assert (Hgc : getClient 0%nat (started e) =
      (Normal (first_client e),
       set_services [{| client := Some (first_client e) |}]
         (set_constructed [first_client e] (started e))))
      by (apply (getClient_first 0%nat (started e)); [reflexivity | exact He]).
    destruct (invoke_with_client 0%nat i _ _ _ Hgc)
      as (out & w2 & new & Hinv & Hcalls & Hsv & Hcon & _ & Hin & Hvia & _).
    rewrite Hinv in Hrun.
    destruct (session remote todo w2) as [rs' w3] eqn:Hrest.
    injection Hrun as <- <-.
    cbn in Hsv, Hcon, Hin, Hcalls.
    assert (Hs2 : services w2 !! 0%nat = Some {| client := Some (first_client e) |})
      by (rewrite Hsv; reflexivity).
    destruct (session_with_client todo w2 0%nat _ rs' w3 Hin Hs2 Hrest)
      as (Hsv' & Hcon' & Hi' & (new' & Hcalls' & Hvia') & Hrs & Hlen).
    repeat split.
    + congruence.
    + congruence.
    + exact Hi'.
    + rewrite Hcalls', Hcalls. apply Forall_app. auto.
    + constructor; auto.
    + cbn. rewrite Hlen. reflexivity.
  - intros w this c j Hs.
    destruct (invoke_with_client this j w c w (getClient_ready _ _ _ Hs))
      as (out & w2 & new & Hinv & _ & Hsv & Hcon & _).
    rewrite Hinv. auto.
Qed.

(** The image type is decided by occurrences of the three tokens anywhere
    in the string, tried in the order png, gif, webp. *)
Lemma mimeType_by_occurrence image :
  (occurs "data:image/png" image -> mimeType image = Png) /\
  (~ occurs "data:image/png" image -> occurs "data:image/gif" image ->
   mimeType image = Gif) /\
  (~ occurs "data:image/png" image -> ~ occurs "data:image/gif" image ->
   occurs "data:image/webp" image -> mimeType image = Webp) /\
  (~ occurs "data:image/png" image -> ~ occurs "data:image/gif" image ->
   ~ occurs "data:image/webp" image -> mimeType image = Jpeg).
Proof.
  unfold mimeType.
  repeat split; intros;
    repeat match goal with
    | H : occurs _ _ |- _ => apply includes_occurs in H; rewrite H
    | H : ~ occurs _ _ |- _ => apply includes_not_occurs in H; rewrite H
    end; reflexivity.
Qed.

(** C4 (amended). In [postTweet] with a non-empty image string, the upload
    is requested with type png when [data:image/png] occurs anywhere in the
    string (so for every string that starts with it), gif when
    [data:image/gif] occurs and the png token does not, webp when
    [data:image/webp] occurs and neither of the other two does, and jpeg
    when none of the three tokens occurs anywhere in the string. *)
Theorem postTweet_upload_type this text image w c w1 :
  getClient this w = (Normal c, w1) ->
  image <> EmptyString ->
  exists m rest,
    calls (snd (postTweet remote this text (Some image) w)) =
      calls w ++
      (c, v2_uploadMedia (Buffer_from (strip_data_uri image) "base64") m
                         "tweet_image") :: rest /\
    (occurs "data:image/png" image -> m = Png) /\
    (String.prefix "data:image/png" image = true -> m = Png) /\
    (~ occurs "data:image/png" image -> occurs "data:image/gif" image ->
     m = Gif) /\
    (~ occurs "data:image/png" image -> ~ occurs "data:image/gif" image ->
     occurs "data:image/webp" image -> m = Webp) /\
    (~ occurs "data:image/png" image -> ~ occurs "data:image/gif" image ->
     ~ occurs "data:image/webp" image -> m = Jpeg).
Proof.
  intros Hgc Hne.
  destruct (getClient_frame _ _ _ _ Hgc) as (Hfr & _).
  assert (Ht : truthy_string (Some image) = true).
  { cbn. destruct (String.eqb_spec image EmptyString); [contradiction | reflexivity]. }
  destruct (mimeType_by_occurrence image) as (Hpng & Hgif & Hwebp & Hjpeg).
  exists (mimeType image).
  assert (Hpre : String.prefix "data:image/png" image = true -> mimeType image = Png).
  { intros Hp. apply Hpng, includes_occurs, prefix_includes, Hp. }
  unfold postTweet, async, try_catch, bind, return_error, ret.
  rewrite Hgc, Ht. cbv beta iota.
  repeat run_step; cbn; rewrite ?Hfr, <- ?app_assoc;
    eexists; (split; [reflexivity | auto]).
Qed.

(** C5. [getTrendingTopics] does the same whatever [woeid] it is given: the
    result and the final state are equal for any two values of the
    argument.  When it gets its client it makes exactly one client call,
    [v1.trendsAvailable], which takes no argument, and returns what that
    call yields; when it gets no client it makes no call. *)
Theorem getTrendingTopics_ignores_woeid this (woeid1 woeid2 : option Z) w :
  getTrendingTopics remote this woeid1 w = getTrendingTopics remote this woeid2 w /\
  (forall c w1,
     getClient this w = (Normal c, w1) ->
     getTrendingTopics remote this woeid1 w =
       (Fulfilled
          match remote (calls w) c v1_trendsAvailable with
          | Fulfilled result => result
          | Rejected error => error
          end,
        set_calls (calls w ++ [(c, v1_trendsAvailable)]) w1)) /\
  (forall e w1,
     getClient this w = (Throw e, w1) ->
     getTrendingTopics remote this woeid1 w = (Fulfilled e, w)).
Proof.
  split; [reflexivity|]. split.
  - intros c w1 Hgc. destruct (getClient_frame _ _ _ _ Hgc) as (Hfr & _).
    run_method Hgc; rewrite Hfr in *; rewrite Hanswer; reflexivity.
  - intros e w1 Hgc.
    destruct (getClient_frame _ _ _ _ Hgc) as (_ & _ & _ & _ & _ & -> & _).
    run_method Hgc. reflexivity.
Qed.

(** The calls of a two-step method: the preliminary call, then the call
    that [follow_up] names, if the preliminary call yields one. *)
Lemma invoke_two_step this i w c w1 :
  getClient this w = (Normal c, w1) ->
  two_step i = true ->
  calls (snd (invoke remote this i w)) =
    calls w ++
    (c, preliminary i) ::
    match remote (calls w) c (preliminary i) with
    | Fulfilled v =>
        match follow_up i v with
        | Some second => [(c, second)]
        | None => []
        end
    | Rejected _ => []
    end.
Proof.
  intros Hgc H2. destruct (getClient_frame _ _ _ _ Hgc) as (Hfr & _).
  destruct (invoke remote this i w) as [out w'] eqn:Hinv. cbn [snd].
  revert Hinv.
  destruct i; try discriminate H2; run_method Hgc; intros [= <- <-];
    cbn in H2; try discriminate H2; try (cbn in Himage; congruence);
    cbn [calls set_calls set_console_error preliminary follow_up action];
    rewrite ?Hfr in *; rewrite <- ?app_assoc;
    repeat match goal with
           | H : remote _ _ _ = _ |- _ => rewrite H
           | H : get_prop _ _ = _ |- _ => rewrite H
           end; reflexivity.
Qed.

(** C6 (amended). A method that gets its client makes one or two client
    calls, all through that client.  The methods other than likeTweet,
    followUser, unfollowUser, getOwnedLists and postTweet with an image make
    exactly one.  Those five first make a preliminary call ([v2.me], or
    [v2.uploadMedia] for the image); when it is fulfilled and, for [v2.me],
    the user id can be read from its answer, they make as their second and
    last call the one they are named after, with that id ([v2.like],
    [v2.follow], [v2.unfollow], [v2.listsOwned]), or [v2.tweet] with the
    uploaded media id; otherwise the preliminary call is their only one. *)
Theorem client_calls_per_invocation this i w c w1 :
  getClient this w = (Normal c, w1) ->
  exists new,
    calls (snd (invoke remote this i w)) = calls w ++ new /\
    Forall (fun x => x.1 = c) new /\
    (1 <= length new <= 2)%nat /\
    length new = calls_made i (remote (calls w) c (preliminary i)) /\
    (two_step i = false -> length new = 1%nat) /\
    (two_step i = true -> new !! 0%nat = Some (c, preliminary i)) /\
    (two_step i = true ->
     new =
       (c, preliminary i) ::
       match remote (calls w) c (preliminary i) with
       | Fulfilled v =>
           match follow_up i v with
           | Some second => [(c, second)]
           | None => []
           end
       | Rejected _ => []
       end) /\
    (forall tweetId second,
       i = LikeTweet tweetId -> new !! 1%nat = Some (c, second) ->
       exists id, second = v2_like id tweetId) /\
    (forall user second,
       i = FollowUser user -> new !! 1%nat = Some (c, second) ->
       exists id, second = v2_follow id user) /\
    (forall user second,
       i = UnfollowUser user -> new !! 1%nat = Some (c, second) ->
       exists id, second = v2_unfollow id user) /\
    (forall second,
       i = GetOwnedLists -> new !! 1%nat = Some (c, second) ->
       exists id, second = v2_listsOwned id) /\
    (forall text image second,
       i = PostTweet text image -> new !! 1%nat = Some (c, second) ->
       exists mediaId, second = v2_tweet (media_status text mediaId)).
Proof.
  intros Hgc.
  destruct (invoke_with_client this i w c w1 Hgc)
    as (out & w2 & new & Hinv & Hcalls & _ & _ & _ & _ & Hvia & Hlen & Hfirst).
  assert (Hlog : two_step i = true ->
    new = (c, preliminary i) ::
       match remote (calls w) c (preliminary i) with
       | Fulfilled v =>
           match follow_up i v with
           | Some second => [(c, second)]
           | None => []
           end
       | Rejected _ => []
       end).
  { intros H2. pose proof (invoke_two_step this i w c w1 Hgc H2) as Hlog.
    rewrite Hinv in Hlog. cbn [snd] in Hlog. rewrite Hcalls in Hlog.
    apply app_inv_head in Hlog. exact Hlog. }
  assert (Hone : two_step i = false -> length new = 1%nat).
  { intros H2. rewrite Hlen. unfold calls_made. rewrite H2. reflexivity. }
  assert (Hsecond : forall second,
            new !! 1%nat = Some (c, second) ->
            two_step i = true /\
            exists v, follow_up i v = Some second).
  { intros second Hnew. destruct (two_step i) eqn:H2.
    - split; [reflexivity|]. rewrite (Hlog eq_refl) in Hnew.
      destruct (remote (calls w) c (preliminary i)) as [v|]; [|discriminate Hnew].
      exists v. destruct (follow_up i v); [|discriminate Hnew].
      cbn in Hnew. congruence.
    - specialize (Hone eq_refl). destruct new as [|? [|? ?]]; discriminate. }
  exists new. rewrite Hinv. cbn [snd].
  split_and!; auto.
  - rewrite Hlen. unfold calls_made.
    destruct (two_step i), (remote _ _ _); try destruct (goes_on _ _); lia.
  - rewrite Hlen. unfold calls_made.
    destruct (two_step i), (remote _ _ _); try destruct (goes_on _ _); lia.
  - intros t r2 -> Hnew. destruct (Hsecond r2 Hnew) as (_ & v & Hv).
    cbn in Hv. repeat (destruct (get_prop _ _); [|discriminate Hv]).
    injection Hv as <-. eauto.
  - intros u r2 -> Hnew. destruct (Hsecond r2 Hnew) as (_ & v & Hv).
    cbn in Hv. repeat (destruct (get_prop _ _); [|discriminate Hv]).
    injection Hv as <-. eauto.
  - intros u r2 -> Hnew. destruct (Hsecond r2 Hnew) as (_ & v & Hv).
    cbn in Hv. repeat (destruct (get_prop _ _); [|discriminate Hv]).
    injection Hv as <-. eauto.
  - intros r2 -> Hnew. destruct (Hsecond r2 Hnew) as (_ & v & Hv).
    cbn in Hv. repeat (destruct (get_prop _ _); [|discriminate Hv]).
    injection Hv as <-. eauto.
  - intros text image r2 -> Hnew. destruct (Hsecond r2 Hnew) as (_ & v & Hv).
    cbn in Hv. injection Hv as <-. eauto.
Qed.

(** C7 (amended). When the timeline call is fulfilled with a response whose
    [data] can be read, [getUserTweets] returns a string: the JSON text of
    a new object with the response's [data] under [result] and a fixed
    [message].  That string is never the payload [data] itself. *)
Theorem getUserTweets_returns_json_text
    this userId paginationToken exclude maxResults w c w1 tweets data :
  getClient this w = (Normal c, w1) ->
  remote (calls w) c
    (v2_userTimeline userId (nullish_or exclude ["retweets"; "replies"]) 50
                     paginationToken) = Fulfilled tweets ->
  get_prop tweets "data" = Normal data ->
  exists text,
    JSON_stringify
      (VObject [("result", data);
                ("message", VString "Tweets fetched successfully")]) = Some text /\
    fst (getUserTweets remote this userId paginationToken exclude maxResults w)
      = Fulfilled (VString text) /\
    VString text <> data.
Proof.
  intros Hgc Hans Hread.
  destruct (getClient_frame _ _ _ _ Hgc) as (Hfr & _).
  rewrite <- Hfr in Hans.
  destruct (JSON_stringify
      (VObject [("result", data);
                ("message", VString "Tweets fetched successfully")]))
    as [text|] eqn:Htext; [|discriminate Htext].
  exists text. split; [reflexivity|]. split.
  - unfold getUserTweets, async, try_catch, bind, ret, await_call, get.
    rewrite Hgc. cbv beta iota zeta. rewrite Hans. cbv beta iota zeta.
    rewrite Hread. unfold JSON_stringify_value. rewrite Htext. reflexivity.
  - intros <-. apply envelope_text_longer in Htext. lia.
Qed.

(** C8. [searchTweets] called without a result count asks the client for 10
    results; called with a count, it asks for that count. *)
Theorem searchTweets_max_results this query w c w1 :
  getClient this w = (Normal c, w1) ->
  calls (snd (searchTweets remote this query None w)) =
    calls w ++ [(c, v2_search query 10)] /\
  forall n : Z,
    calls (snd (searchTweets remote this query (Some n) w)) =
      calls w ++ [(c, v2_search query n)].
Proof.
  intros Hgc. destruct (getClient_frame _ _ _ _ Hgc) as (Hfr & _).
  split; [|intros n]; run_method Hgc; cbn; rewrite Hfr; reflexivity.
Qed.

(** [getUserTweets] asks the client for 50 results whatever [maxResults]
    is. *)
Lemma getUserTweets_max_results
    this userId paginationToken exclude maxResults w c w1 :
  getClient this w = (Normal c, w1) ->
  calls (snd (getUserTweets remote this userId paginationToken exclude
                maxResults w)) =
    calls w ++
    [(c, v2_userTimeline userId (nullish_or exclude ["retweets"; "replies"]) 50
                         paginationToken)].
Proof.
  intros Hgc. destruct (getClient_frame _ _ _ _ Hgc) as (Hfr & _).
  run_method Hgc; cbn; rewrite Hfr; reflexivity.
Qed.

(** C10. [getUserMentionTimeline] asks the client for [maxResults] results
    when that is a number other than zero, and for 10 when it is zero or
    not given. *)
Theorem getUserMentionTimeline_max_results this userId paginationToken w c w1 :
  getClient this w = (Normal c, w1) ->
  (forall n : Z, n <> 0 ->
     calls (snd (getUserMentionTimeline remote this userId paginationToken
                   (Some n) w)) =
       calls w ++ [(c, v2_userMentionTimeline userId n paginationToken)]) /\
  calls (snd (getUserMentionTimeline remote this userId paginationToken
                (Some 0) w)) =
    calls w ++ [(c, v2_userMentionTimeline userId 10 paginationToken)] /\
  calls (snd (getUserMentionTimeline remote this userId paginationToken
                None w)) =
    calls w ++ [(c, v2_userMentionTimeline userId 10 paginationToken)].
Proof.
  intros Hgc. destruct (getClient_frame _ _ _ _ Hgc) as (Hfr & _).
  split; [intros n Hn | split]; run_method Hgc; cbn; rewrite Hfr;
    try reflexivity.
  all: destruct (Z.eqb_spec n 0); [contradiction | reflexivity].
Qed.

End Properties.

(** ** The properties at sample inputs *)

(** C1 as stated fails: with the access token secret missing and no client
    yet, [getTweet] does not reject; its promise is fulfilled. *)
Lemma configuration_error_not_thrown :
  services (started three_credentials) !! 0%nat = Some {| client := None |} /\
  configured (process_env (started three_credentials)) = false /\
  ~ (exists e w',
       invoke remote_up 0%nat (GetTweet "1") (started three_credentials) =
         (Rejected e, w')).
Proof.
  split; [reflexivity|]. split; [vm_compute; reflexivity|].
  intros (e & w' & H). vm_compute in H. discriminate H.
Qed.

Lemma configuration_error_is_returned_witness :
  services (started three_credentials) !! 0%nat = Some {| client := None |} /\
  configured (process_env (started three_credentials)) = false /\
  exists w',
    invoke remote_up 0%nat (GetTweet "1") (started three_credentials) =
      (Fulfilled configuration_error, w') /\
    calls w' = calls (started three_credentials) /\
    constructed w' = constructed (started three_credentials) /\
    services w' = services (started three_credentials).
Proof.
  split; [reflexivity|]. split; [vm_compute; reflexivity|].
  apply (configuration_error_is_returned remote_up 0%nat (GetTweet "1")
           (started three_credentials)).
  - reflexivity.
  - vm_compute; reflexivity.
Defined.


Lemma one_client_for_all_calls_witness :
  configured credentials = true /\
  constructed (snd (session remote_up
     [LikeTweet "9"; GetOwnedLists; GetTrendingTopics None] (boot credentials))) =
    [first_client credentials].
Proof.
  split; [vm_compute; reflexivity|].
  apply (one_client_for_all_calls remote_up credentials (LikeTweet "9")
           [GetOwnedLists; GetTrendingTopics None]
           (fst (session remote_up
              [LikeTweet "9"; GetOwnedLists; GetTrendingTopics None]
              (boot credentials)))).
  - vm_compute; reflexivity.
  - apply surjective_pairing.
Defined.

(** C4 as stated fails: a string that starts with none of the three
    prefixes is uploaded as png, not jpeg, when the png token occurs further
    on in it. *)
Lemma upload_type_not_by_prefix :
  String.prefix "data:image/png" padded_png_image = false /\
  String.prefix "data:image/gif" padded_png_image = false /\
  String.prefix "data:image/webp" padded_png_image = false /\
  upload_types
    (calls (snd (postTweet remote_up 0%nat "hello" (Some padded_png_image)
                   (started credentials)))) <> [Jpeg].
Proof.
  repeat (split; [reflexivity|]). vm_compute. discriminate.
Qed.

(** The same for the gif prefix: a string that starts with [data:image/gif]
    is uploaded as png when the png token occurs in it. *)
Example gif_prefix_uploaded_as_png :
  String.prefix "data:image/gif" gif_then_png_image = true /\
  upload_types
    (calls (snd (postTweet remote_up 0%nat "hello" (Some gif_then_png_image)
                   (started credentials)))) = [Png].
Proof. split; vm_compute; reflexivity. Qed.

Lemma postTweet_upload_type_witness :
  getClient 0%nat (started credentials) =
    (Normal (first_client credentials), snd (getClient 0%nat (started credentials))) /\
  "data:image/gif;base64,R0lGODlh" <> EmptyString /\
  exists m rest,
    calls (snd (postTweet remote_up 0%nat "hello"
                  (Some "data:image/gif;base64,R0lGODlh") (started credentials))) =
      calls (started credentials) ++
      (first_client credentials,
       v2_uploadMedia
         (Buffer_from (strip_data_uri "data:image/gif;base64,R0lGODlh") "base64")
         m "tweet_image") :: rest /\
    m = Gif.
Proof.
  split; [vm_compute; reflexivity|]. split; [discriminate|].
  destruct (postTweet_upload_type remote_up 0%nat "hello"
              "data:image/gif;base64,R0lGODlh" (started credentials)
              (first_client credentials)
              (snd (getClient 0%nat (started credentials))))
    as (m & rest & Hcalls & _ & _ & Hgif & _).
  - vm_compute; reflexivity.
  - discriminate.
  - exists m, rest. split; [exact Hcalls|].
    apply Hgif.
    + apply includes_not_occurs. vm_compute; reflexivity.
    + apply includes_occurs. vm_compute; reflexivity.
Defined.

(** C6 as stated fails: [likeTweet] makes two client calls. *)
Lemma likeTweet_makes_two_calls :
  ~ (length (calls (snd (serve remote_up (LikeTweet "9") (boot credentials)))) =
     1%nat) /\
  calls (snd (serve remote_up (LikeTweet "9") (boot credentials))) =
    [(first_client credentials, v2_me);
     (first_client credentials, v2_like (VString "42") "9")].
Proof. split; [vm_compute; discriminate | vm_compute; reflexivity]. Qed.

Lemma client_calls_per_invocation_witness :
  getClient 0%nat (started credentials) =
    (Normal (first_client credentials), snd (getClient 0%nat (started credentials))) /\
  two_step (LikeTweet "9") = true /\
  calls (snd (invoke remote_up 0%nat (LikeTweet "9") (started credentials))) =
    calls (started credentials) ++
    [(first_client credentials, v2_me);
     (first_client credentials, v2_like (VString "42") "9")].
Proof.
  split; [vm_compute; reflexivity|]. split; [reflexivity|].
  destruct (client_calls_per_invocation remote_up 0%nat (LikeTweet "9")
              (started credentials) (first_client credentials)
              (snd (getClient 0%nat (started credentials))))
    as (new & Hcalls & _ & _ & _ & _ & _ & Hlog & _).
  - vm_compute; reflexivity.
  - rewrite Hcalls, (Hlog eq_refl). reflexivity.
Defined.

Lemma getTrendingTopics_ignores_woeid_witness :
  getClient 0%nat (started credentials) =
    (Normal (first_client credentials), snd (getClient 0%nat (started credentials))) /\
  getTrendingTopics remote_up 0%nat (Some 23424977) (started credentials) =
    (Fulfilled (sample_response v1_trendsAvailable),
     set_calls
       (calls (started credentials) ++
        [(first_client credentials, v1_trendsAvailable)])
       (snd (getClient 0%nat (started credentials)))).
Proof.
  split; [vm_compute; reflexivity|].
  destruct (getTrendingTopics_ignores_woeid remote_up 0%nat (Some 23424977) None
              (started credentials)) as (_ & Hcall & _).
  apply (Hcall (first_client credentials)
               (snd (getClient 0%nat (started credentials)))).
  vm_compute; reflexivity.
Defined.

(** C7 as stated fails: the timeline call yields a list of posts, and
    [getUserTweets] returns something else (a string). *)
Lemma getUserTweets_result_is_not_the_payload :
  remote_up [] (first_client credentials)
    (v2_userTimeline "u" ["retweets"; "replies"] 50 None) =
    Fulfilled (VObject [("data", VArray [sample_tweet])]) /\
  fst (serve remote_up (GetUserTweets "u" None None None) (boot credentials)) <>
    Fulfilled (VArray [sample_tweet]).
Proof. split; [reflexivity | vm_compute; discriminate]. Qed.

Lemma getUserTweets_returns_json_text_witness :
  getClient 0%nat (started credentials) =
    (Normal (first_client credentials), snd (getClient 0%nat (started credentials))) /\
  exists text,
    JSON_stringify
      (VObject [("result", VArray [sample_tweet]);
                ("message", VString "Tweets fetched successfully")]) = Some text /\
    fst (getUserTweets remote_up 0%nat "u" None None None (started credentials)) =
      Fulfilled (VString text) /\
    VString text <> VArray [sample_tweet].
Proof.
  split; [vm_compute; reflexivity|].
  apply (getUserTweets_returns_json_text remote_up 0%nat "u" None None None
           (started credentials) (first_client credentials)
           (snd (getClient 0%nat (started credentials)))
           (VObject [("data", VArray [sample_tweet])])).
  - vm_compute; reflexivity.
  - reflexivity.
  - reflexivity.
Defined.

Lemma searchTweets_max_results_witness :
  getClient 0%nat (started credentials) =
    (Normal (first_client credentials), snd (getClient 0%nat (started credentials))) /\
  calls (snd (searchTweets remote_up 0%nat "rocq" None (started credentials))) =
    calls (started credentials) ++ [(first_client credentials, v2_search "rocq" 10)] /\
  calls (snd (searchTweets remote_up 0%nat "rocq" (Some 25) (started credentials))) =
    calls (started credentials) ++ [(first_client credentials, v2_search "rocq" 25)].
Proof.
  split; [vm_compute; reflexivity|].
  destruct (searchTweets_max_results remote_up 0%nat "rocq" (started credentials)
              (first_client credentials)
              (snd (getClient 0%nat (started credentials))))
    as [Hdefault Hgiven].
  - vm_compute; reflexivity.
  - split; [exact Hdefault | exact (Hgiven 25)].
Defined.

(** C9 fails on the code: asked for 5 results, [getUserTweets] asks the
    client for 50. *)
Lemma getUserTweets_asked_for_5_requests_50 :
  calls (snd (serve remote_up (GetUserTweets "u" None None (Some 5))
                (boot credentials))) =
    [(first_client credentials,
      v2_userTimeline "u" ["retweets"; "replies"] 50 None)].
Proof. vm_compute; reflexivity. Qed.

Lemma getUserMentionTimeline_max_results_witness :
  getClient 0%nat (started credentials) =
    (Normal (first_client credentials), snd (getClient 0%nat (started credentials))) /\
  calls (snd (getUserMentionTimeline remote_up 0%nat "u" None (Some 25)
                (started credentials))) =
    calls (started credentials) ++
    [(first_client credentials, v2_userMentionTimeline "u" 25 None)] /\
  calls (snd (getUserMentionTimeline remote_up 0%nat "u" None (Some 0)
                (started credentials))) =
    calls (started credentials) ++
    [(first_client credentials, v2_userMentionTimeline "u" 10 None)].
Proof.
  split; [vm_compute; reflexivity|].
  destruct (getUserMentionTimeline_max_results remote_up 0%nat "u" None
              (started credentials) (first_client credentials)
              (snd (getClient 0%nat (started credentials))))
    as (Hgiven & Hzero & _).
  - vm_compute; reflexivity.
  - split; [apply (Hgiven 25); lia | exact Hzero].
Defined.

(** * Further properties of the service *)

Section Behaviour.

Variable remote : oracle.

(** X1. [getInstance] never throws and is idempotent: it returns the stored
    service object when there is one, creates one with a null client when
    there is none, and a second call returns the same object and changes
    nothing.  It makes no client call and constructs no client. *)
Theorem getInstance_idempotent w :
  exists r w1,
    getInstance w = (Normal r, w1) /\
    TwitterService_instance w1 = Some r /\
    getInstance w1 = (Normal r, w1) /\
    (forall r0, TwitterService_instance w = Some r0 -> r = r0 /\ w1 = w) /\
    (TwitterService_instance w = None ->
     r = length (services w) /\
     services w1 = services w ++ [{| client := None |}]) /\
    calls w1 = calls w /\ constructed w1 = constructed w /\
    process_env w1 = process_env w.
Proof.
  unfold getInstance. destruct (TwitterService_instance w) as [r0|] eqn:Hi.
  - exists r0, w. rewrite Hi. repeat split; auto; congruence.
  - eexists; eexists. split; [reflexivity|]. cbn.
    repeat split; auto; discriminate.
Qed.

(** X2. A client that [getClient] constructs carries the four values found
    in the environment at that moment, each of them a non-empty string, and
    its identity is fresh. *)
Theorem constructed_client_has_credentials this w c w1 :
  services w !! this = Some {| client := None |} ->
  getClient this w = (Normal c, w1) ->
  exists key secret token token_secret,
    process_env w !! "TWITTER_API_KEY" = Some key /\
    process_env w !! "TWITTER_API_KEY_SECRET" = Some secret /\
    process_env w !! "TWITTER_ACCESS_TOKEN" = Some token /\
    process_env w !! "TWITTER_ACCESS_TOKEN_SECRET" = Some token_secret /\
    key <> EmptyString /\ secret <> EmptyString /\
    token <> EmptyString /\ token_secret <> EmptyString /\
    c = {| client_id := length (constructed w);
           appKey := Some key; appSecret := Some secret;
           accessToken := Some token; accessSecret := Some token_secret |} /\
    constructed w1 = constructed w ++ [c].
Proof.
  intros Hs Hgc.
  destruct (configured (process_env w)) eqn:Hc.
  - rewrite (getClient_first _ _ Hs Hc) in Hgc. injection Hgc as <- <-.
    unfold configured in Hc.
    destruct (process_env w !! "TWITTER_API_KEY") as [key|];
      [|discriminate Hc].
    destruct (process_env w !! "TWITTER_API_KEY_SECRET") as [secret|];
      [|rewrite andb_false_r in Hc; discriminate Hc].
    destruct (process_env w !! "TWITTER_ACCESS_TOKEN") as [token|];
      [|rewrite andb_false_r in Hc; discriminate Hc].
    destruct (process_env w !! "TWITTER_ACCESS_TOKEN_SECRET") as [token_secret|];
      [|rewrite andb_false_r in Hc; discriminate Hc].
    cbn in Hc.
    exists key, secret, token, token_secret.
    repeat split; auto; intros ->; cbn in Hc;
      rewrite ?andb_false_r in Hc; discriminate Hc.
  - rewrite (getClient_unconfigured _ _ Hs Hc) in Hgc. discriminate Hgc.
Qed.

(** X3. The try/catch of a method lets nothing through.  Provided every
    client call the method makes settles, and settles with a plain value
    (an [Error] or parsed JSON, never a thenable), as the [oracle] type
    says, the promise of the method is fulfilled, not rejected: whatever
    the state and the arguments, whether the client is missing, a call is
    rejected or an answer is malformed. *)
Theorem methods_never_reject this i w :
  exists v, fst (invoke remote this i w) = Fulfilled v.
Proof.
  destruct (getClient this w) as [[c|e] w1] eqn:Hgc;
    destruct i; run_method Hgc; eexists; reflexivity.
Qed.

(** X4. What a method leaves alone: it never changes the environment or the
    stored singleton, never creates or removes a service object, constructs
    at most one client, and only appends to the call log, at most two
    calls. *)
Theorem invoke_frame this i w :
  let w' := snd (invoke remote this i w) in
  process_env w' = process_env w /\
  TwitterService_instance w' = TwitterService_instance w /\
  length (services w') = length (services w) /\
  (forall that, that <> this -> services w' !! that = services w !! that) /\
  (constructed w' = constructed w \/
   exists c, constructed w' = constructed w ++ [c]) /\
  exists new, calls w' = calls w ++ new /\ (length new <= 2)%nat.
Proof.
  destruct (getClient this w) as [[c|e] w1] eqn:Hgc.
  - destruct (invoke_with_client remote this i w c w1 Hgc)
      as (out & w2 & new & Hinv & Hcalls & Hsv & Hcon & Henv & Hin & _ & Hlen & _).
    destruct (getClient_frame _ _ _ _ Hgc)
      as (_ & Henv1 & Hin1 & _ & Hlen1 & Hs1 & Hcase).
    rewrite Hinv. cbn [snd].
    repeat split; try congruence.
    + intros that Hne. rewrite Hsv.
      destruct Hcase as [-> | (Hs & Hc & _)]; [reflexivity|].
      rewrite (getClient_first _ _ Hs Hc) in Hgc. injection Hgc as _ <-.
      cbn. apply list_lookup_insert_ne. congruence.
    + rewrite Hcon. destruct Hcase as [-> | (_ & _ & ->)]; eauto.
    + exists new. split; [exact Hcalls|]. rewrite Hlen. unfold calls_made.
      destruct (two_step i), (remote _ _ _); try destruct (goes_on _ _); lia.
  - destruct (invoke_without_client remote this i w e w1 Hgc)
      as (w2 & Hinv & Hcalls & Hcon & Hsv & Henv & Hin).
    rewrite Hinv. cbn [snd].
    repeat split; try congruence; auto.
    exists []. rewrite app_nil_r. split; [exact Hcalls | cbn; lia].
Qed.

(** X5. Only [getUserTweets] writes to the console: when it does, it logs
    exactly one entry, holding the caught error that it returns.  No other
    method logs anything. *)
Theorem console_only_on_timeline_failure this i w :
  let out := fst (invoke remote this i w) in
  let w' := snd (invoke remote this i w) in
  console_error w' = console_error w \/
  exists u p x m e,
    i = GetUserTweets u p x m /\ out = Fulfilled e /\
    console_error w' = console_error w ++ [("Error fetching tweets:", e)].
Proof.
  cbv zeta.
  destruct (invoke remote this i w) as [out w'] eqn:Hinv. cbn [fst snd].
  revert Hinv.
  destruct (getClient this w) as [[c|e] w1] eqn:Hgc;
    destruct (getClient_frame _ _ _ _ Hgc) as (_ & _ & _ & Hcon & _);
    destruct i; run_method Hgc; intros [= <- <-]; cbn; rewrite ?Hcon;
    first [ left; reflexivity
          | right; do 5 eexists; split; [reflexivity | split; reflexivity] ].
Qed.

(** X6. A configuration failure is not permanent: the failed call leaves no
    client behind, so once the credentials are in the environment the next
    call on the same service constructs the client and reaches the remote
    side. *)
Theorem configuration_failure_is_retried this i j w e' :
  services w !! this = Some {| client := None |} ->
  configured (process_env w) = false ->
  configured e' = true ->
  let w1 := snd (invoke remote this i w) in
  let w2 := snd (invoke remote this j (set_process_env e' w1)) in
  fst (invoke remote this i w) = Fulfilled configuration_error /\
  services w1 !! this = Some {| client := None |} /\
  exists c new,
    constructed w2 = constructed w ++ [c] /\
    services w2 !! this = Some {| client := Some c |} /\
    appKey c = e' !! "TWITTER_API_KEY" /\
    calls w2 = calls w ++ new /\ Forall (fun x => x.1 = c) new /\
    (1 <= length new)%nat.
Proof.
  intros Hs Hc He'. cbv zeta.
  destruct (invoke_without_client remote this i w _ _
              (getClient_unconfigured _ _ Hs Hc))
    as (w1 & Hinv & Hcalls & Hcon & Hsv & _).
  rewrite Hinv. cbn [fst snd].
  split; [reflexivity|]. split; [rewrite Hsv; exact Hs|].
  assert (Hs1 : services (set_process_env e' w1) !! this =
                Some {| client := None |}) by (cbn; rewrite Hsv; exact Hs).
  pose proof (getClient_first this (set_process_env e' w1) Hs1 He') as Hgc.
  cbv zeta in Hgc.
  destruct (invoke_with_client remote this j _ _ _ Hgc)
    as (out & w2 & new & Hinv2 & Hcalls2 & Hsv2 & Hcon2 & _ & _ & Hvia & Hlen & _).
  rewrite Hinv2. cbn [snd].
  match type of Hgc with _ = (Normal ?c, _) => exists c, new end.
  split_and!.
  - rewrite Hcon2. cbn. rewrite Hcon. reflexivity.
  - rewrite Hsv2. cbn. apply list_lookup_insert_eq.
    eapply lookup_lt_Some. rewrite Hsv. exact Hs.
  - reflexivity.
  - rewrite Hcalls2. cbn. rewrite Hcalls. reflexivity.
  - exact Hvia.
  - rewrite Hlen. unfold calls_made.
    destruct (two_step j), (remote _ _ _); try destruct (goes_on _ _); lia.
Qed.

(** X7. A session on a process whose credentials are incomplete: every call
    is fulfilled with the configuration error, the check is made again at
    every call, and neither a client nor a remote call is ever made. *)
Theorem session_without_credentials todo : forall e rs w',
  configured e = false ->
  session remote todo (boot e) = (rs, w') ->
  Forall (fun y => y.2 = Fulfilled configuration_error) rs /\
  length rs = length todo /\
  calls w' = [] /\ constructed w' = [].
Proof.
  assert (Hgen : forall todo w r rs w',
    TwitterService_instance w = Some r ->
    services w !! r = Some {| client := None |} ->
    configured (process_env w) = false ->
    session remote todo w = (rs, w') ->
    Forall (fun y => y.2 = Fulfilled configuration_error) rs /\
    length rs = length todo /\
    calls w' = calls w /\ constructed w' = constructed w).
  { clear todo. induction todo as [|i todo IH]; intros w r rs w' Hi Hs Hc Hrun;
      cbn in Hrun.
    - injection Hrun as <- <-. repeat split; auto.
    - unfold getInstance in Hrun. rewrite Hi in Hrun.
      destruct (invoke_without_client remote r i w _ _
                  (getClient_unconfigured _ _ Hs Hc))
        as (w1 & Hinv & Hcalls & Hcon & Hsv & Henv & Hin).
      rewrite Hinv in Hrun.
      destruct (session remote todo w1) as [rs' w2] eqn:Hrest.
      injection Hrun as <- <-.
      destruct (IH w1 r rs' w2) as (Hall & Hlen & Hcalls' & Hcon'); auto;
        try congruence.
      repeat split; try congruence.
      + constructor; auto.
      + cbn. rewrite Hlen. reflexivity. }
  intros e rs w' Hc Hrun. destruct todo as [|i todo].
  - cbn in Hrun. injection Hrun as <- <-. repeat split; auto.
  - cbn [session] in Hrun.
    change (getInstance (boot e)) with (Normal 0%nat, started e) in Hrun.
    cbv iota in Hrun.
    change (let (r, w2) := invoke remote 0%nat i (started e) in
            let (rs, w3) := session remote todo w2 in ((0%nat, r) :: rs, w3))
      with (session remote (i :: todo) (started e)) in Hrun.
    apply (Hgen (i :: todo) (started e) 0%nat rs w'); auto.
Qed.



(** Follow again, in the goal, the branches recorded in the hypotheses. *)
Ltac replay :=
  repeat (cbn;
          match goal with
          | H : _ = Fulfilled _ |- _ => rewrite H
          | H : _ = Rejected _ |- _ => rewrite H
          | H : get_prop _ _ = _ |- _ => rewrite H
          | H : negb _ = _ |- _ => rewrite H
          end).

(** X8. Once the service has its client, the environment is not read any
    more: a method gives the same result and the same effects whatever the
    environment has become, cleared or changed. *)
Theorem environment_ignored_once_client_exists this i w c e' :
  services w !! this = Some {| client := Some c |} ->
  invoke remote this i (set_process_env e' w) =
    (fst (invoke remote this i w),
     set_process_env e' (snd (invoke remote this i w))).
Proof.
  intros Hs.
  pose proof (getClient_ready this c w Hs) as Hgc.
  assert (Hgc' : getClient this (set_process_env e' w) =
                 (Normal c, set_process_env e' w))
    by (apply getClient_ready; exact Hs).
  destruct (invoke remote this i w) as [out w'] eqn:Hinv. cbn [fst snd].
  revert Hinv.
  destruct i; run_method Hgc; intros [= <- <-];
    cbv [invoke getUserTweets getTweet getUserMentionTimeline
         quoteAndComment replyToTweet postTweet likeTweet followUser
         unfollowUser getUserByUsername searchTweets getTrendingTopics
         createList addListMember removeListMember getOwnedLists
         async try_catch bind return_error ret console_error_log
         await_call get];
    rewrite Hgc'; cbn in *; replay; reflexivity.
Qed.




(** X12. likeTweet, followUser, unfollowUser and getOwnedLists act for the
    authenticated user: when [v2.me] is fulfilled and [me.data.id] can be
    read, the second call carries exactly that id, unchecked ([undefined]
    when the answer has no id), and nothing else is called. *)
Theorem me_id_is_forwarded this i w c w1 me me_data id :
  getClient this w = (Normal c, w1) ->
  asks_me i = true ->
  remote (calls w) c v2_me = Fulfilled me ->
  get_prop me "data" = Normal me_data ->
  get_prop me_data "id" = Normal id ->
  calls (snd (invoke remote this i w)) =
    calls w ++ [(c, v2_me); (c, action i id)].
Proof.
  intros Hgc Hme Hans Hdata Hid.
  destruct (getClient_frame _ _ _ _ Hgc) as (Hfr & _).
  rewrite <- Hfr in Hans.
  destruct i; try discriminate Hme; clear Hme;
    open_method Hgc; unfold await_call at 1; rewrite Hans; cbv beta iota zeta;
    unfold get at 1; rewrite Hdata; cbv beta iota zeta;
    unfold get at 1; rewrite Hid; cbv beta iota zeta;
    repeat run_step; cbn; rewrite Hfr, <- ?app_assoc; reflexivity.
Qed.

(** X13. [likeTweet] builds its own result: an object with the single field
    [liked], taken from the [data] of the answer to [v2.like]; every other
    field of the answer is dropped. *)
Theorem likeTweet_result this tweetId w c w1 me me_data id res res_data liked :
  getClient this w = (Normal c, w1) ->
  remote (calls w) c v2_me = Fulfilled me ->
  get_prop me "data" = Normal me_data ->
  get_prop me_data "id" = Normal id ->
  remote (calls w ++ [(c, v2_me)]) c (v2_like id tweetId) = Fulfilled res ->
  get_prop res "data" = Normal res_data ->
  get_prop res_data "liked" = Normal liked ->
  fst (likeTweet remote this tweetId w) = Fulfilled (VObject [("liked", liked)]).
Proof.
  intros Hgc Hans Hdata Hid Hans2 Hres Hliked.
  destruct (getClient_frame _ _ _ _ Hgc) as (Hfr & _).
  rewrite <- Hfr in Hans, Hans2.
  unfold likeTweet, async, try_catch, bind, ret, await_call, get.
  rewrite Hgc. cbv beta iota zeta. rewrite Hans. cbv beta iota zeta.
  rewrite Hdata. cbv beta iota zeta. rewrite Hid. cbv beta iota zeta.
  cbn [calls set_calls]. rewrite Hans2. cbv beta iota zeta.
  rewrite Hres. cbv beta iota zeta. rewrite Hliked. reflexivity.
Qed.

(** X14. Posting with an image: the tweet refers to whatever the upload
    answered, as its only media id; and when the upload is rejected no
    tweet is posted and the rejection reason is the result. *)
Theorem postTweet_media_id this text image w c w1 :
  getClient this w = (Normal c, w1) ->
  image <> EmptyString ->
  let upload := v2_uploadMedia (Buffer_from (strip_data_uri image) "base64")
                               (mimeType image) "tweet_image" in
  (forall mediaId,
     remote (calls w) c upload = Fulfilled mediaId ->
     calls (snd (postTweet remote this text (Some image) w)) =
       calls w ++ [(c, upload); (c, v2_tweet (media_status text mediaId))]) /\
  (forall e,
     remote (calls w) c upload = Rejected e ->
     postTweet remote this text (Some image) w =
       (Fulfilled e, set_calls (calls w ++ [(c, upload)]) w1)).
Proof.
  intros Hgc Hne upload.
  destruct (getClient_frame _ _ _ _ Hgc) as (Hfr & _).
  assert (Ht : truthy_string (Some image) = true).
  { cbn. destruct (String.eqb_spec image EmptyString); [contradiction | reflexivity]. }
  split; [intros mediaId Hans | intros e Hans]; rewrite <- Hfr in Hans;
    unfold postTweet, async, try_catch, bind, return_error, ret;
    rewrite Hgc, Ht; cbv beta iota;
    unfold await_call at 1; fold upload; rewrite Hans; cbv beta iota zeta.
  - repeat run_step; cbn; rewrite Hfr, <- ?app_assoc; reflexivity.
  - rewrite Hfr. reflexivity.
Qed.

(** X15. Posting without an image, or with the empty string as image, makes
    the single call [v2.tweet(text)]: nothing is uploaded. *)
Theorem postTweet_text_only this text image w c w1 :
  getClient this w = (Normal c, w1) ->
  image = None \/ image = Some EmptyString ->
  calls (snd (postTweet remote this text image w)) =
    calls w ++ [(c, v2_tweet (VString text))].
Proof.
  intros Hgc Himg. destruct (getClient_frame _ _ _ _ Hgc) as (Hfr & _).
  destruct Himg as [-> | ->];
    unfold postTweet, async, try_catch, bind, return_error, ret;
    rewrite Hgc; cbn [truthy_string string_value ToBoolean String.eqb negb];
    cbv beta iota; repeat run_step; cbn; rewrite Hfr; reflexivity.
Qed.

(** X16. The timeline request of [getUserTweets]: the exclusion list is the
    caller's, also when it is empty, and [retweets, replies] only when none
    is given; the pagination token is forwarded as given. *)
Theorem getUserTweets_exclude this userId paginationToken maxResults w c w1 :
  getClient this w = (Normal c, w1) ->
  (forall exclude,
     calls (snd (getUserTweets remote this userId paginationToken
                   (Some exclude) maxResults w)) =
       calls w ++ [(c, v2_userTimeline userId exclude 50 paginationToken)]) /\
  calls (snd (getUserTweets remote this userId paginationToken None
                maxResults w)) =
    calls w ++
    [(c, v2_userTimeline userId ["retweets"; "replies"] 50 paginationToken)].
Proof.
  intros Hgc. split; [intros exclude|].
  - exact (getUserTweets_max_results remote this userId paginationToken
             (Some exclude) maxResults w c w1 Hgc).
  - exact (getUserTweets_max_results remote this userId paginationToken
             None maxResults w c w1 Hgc).
Qed.

(** X17. When the timeline answer has no [data] (the read gives
    [undefined]), [getUserTweets] still reports success: the text it returns
    holds the message alone, the [result] key is dropped. *)
Theorem getUserTweets_without_data
    this userId paginationToken exclude maxResults w c w1 tweets :
  getClient this w = (Normal c, w1) ->
  remote (calls w) c
    (v2_userTimeline userId (nullish_or exclude ["retweets"; "replies"]) 50
                     paginationToken) = Fulfilled tweets ->
  get_prop tweets "data" = Normal VUndefined ->
  getUserTweets remote this userId paginationToken exclude maxResults w =
    (Fulfilled
       (VString ("{" +:+ quote "message" +:+ ":" +:+
                 quote "Tweets fetched successfully" +:+ "}")),
     set_calls
       (calls w ++
        [(c, v2_userTimeline userId (nullish_or exclude ["retweets"; "replies"])
                             50 paginationToken)]) w1).
Proof.
  intros Hgc Hans Hread.
  destruct (getClient_frame _ _ _ _ Hgc) as (Hfr & _).
  rewrite <- Hfr in Hans.
  unfold getUserTweets, async, try_catch, bind, ret, await_call, get.
  rewrite Hgc. cbv beta iota zeta. rewrite Hans. cbv beta iota zeta.
  rewrite Hread, Hfr. reflexivity.
Qed.

End Behaviour.

(** ** Data URIs *)

Lemma append_cons c (a b : string) : String c a +:+ b = String c (a +:+ b).
Proof. reflexivity. Qed.

Lemma append_empty (b : string) : EmptyString +:+ b = b.
Proof. reflexivity. Qed.

Lemma append_assoc (a b c : string) : (a +:+ b) +:+ c = a +:+ b +:+ c.
Proof.
  induction a as [|x a IH]; [reflexivity|].
  rewrite !append_cons, IH. reflexivity.
Qed.

Lemma all_chars_app p (a b : string) :
  all_chars p (a +:+ b) = all_chars p a && all_chars p b.
Proof.
  induction a as [|x a IH]; [reflexivity|].
  rewrite append_cons. cbn [all_chars]. rewrite IH, andb_assoc. reflexivity.
Qed.

Lemma span_word_split s :
  s = fst (span_word s) +:+ snd (span_word s) /\
  all_chars is_word_char (fst (span_word s)) = true.
Proof.
  induction s as [|c s [IH1 IH2]]; cbn [span_word]; [split; reflexivity|].
  destruct (is_word_char c) eqn:Hc; [|split; reflexivity].
  destruct (span_word s) as [w r]. cbn [fst snd] in *.
  rewrite append_cons, <- IH1. cbn [all_chars]. rewrite Hc, IH2.
  split; reflexivity.
Qed.

Lemma span_word_stop w c r :
  all_chars is_word_char w = true -> is_word_char c = false ->
  span_word (w +:+ String c r) = (w, String c r).
Proof.
  intros Hw Hc. induction w as [|x w IH].
  - rewrite append_empty. cbn [span_word]. rewrite Hc. reflexivity.
  - cbn [all_chars] in Hw. apply andb_true_iff in Hw as [Hx Hw].
    rewrite append_cons. cbn [span_word]. rewrite Hx, (IH Hw). reflexivity.
Qed.

(** X18. What reaches the upload buffer.  [strip_data_uri] either leaves the
    string as it is, or the string is a data URI
    [data:image/<word>;base64,<rest>] and the result is [<rest>].  Any other
    string, such as a data URI after a leading space or one with the
    subtype [svg+xml], goes to the base64 decoder with its header. *)
Theorem strip_data_uri_cases s :
  strip_data_uri s = s \/
  exists subtype,
    subtype <> EmptyString /\ all_chars is_word_char subtype = true /\
    s = data_uri subtype (strip_data_uri s).
Proof.
  unfold strip_data_uri.
  destruct (strip_prefix "data:image/" s) as [rest|] eqn:H1; [|left; reflexivity].
  apply strip_prefix_Some in H1.
  destruct (span_word_split rest) as [Hsplit Hword].
  destruct (span_word rest) as [[|x w] rest']; [left; reflexivity|].
  cbn [fst snd] in *.
  destruct (strip_prefix ";base64," rest') as [payload|] eqn:H2; [|left; reflexivity].
  apply strip_prefix_Some in H2.
  right. exists (String x w). split; [discriminate|]. split; [exact Hword|].
  unfold data_uri. rewrite H1, Hsplit, H2. reflexivity.
Qed.

(** For a data URI [data:image/<subtype>;base64,<payload>] with a non-empty
    subtype made of word characters, the header is removed and the payload
    alone is decoded, whatever the payload is. *)
Lemma strip_data_uri_payload subtype payload :
  subtype <> EmptyString ->
  all_chars is_word_char subtype = true ->
  strip_data_uri (data_uri subtype payload) = payload.
Proof.
  intros Hne Hword. unfold strip_data_uri, data_uri.
  assert (H1 : strip_prefix "data:image/"
                 ("data:image/" +:+ subtype +:+ ";base64," +:+ payload) =
               Some (subtype +:+ ";base64," +:+ payload))
    by (apply strip_prefix_Some; reflexivity).
  rewrite H1.
  change (";base64," +:+ payload) with (String ";"%char ("base64," +:+ payload)).
  rewrite (span_word_stop subtype ";"%char ("base64," +:+ payload) Hword eq_refl).
  destruct subtype as [|x w]; [contradiction|].
  change (String ";"%char ("base64," +:+ payload)) with (";base64," +:+ payload).
  assert (H2 : strip_prefix ";base64," (";base64," +:+ payload) = Some payload)
    by (apply strip_prefix_Some; reflexivity).
  rewrite H2. reflexivity.
Qed.

Lemma word_char_not_colon c : is_word_char c = true -> not_colon c = true.
Proof.
  destruct c as [[] [] [] [] [] [] [] []]; vm_compute; congruence.
Qed.

Lemma word_char_not_semicolon c :
  is_word_char c = true -> negb (Ascii.eqb c ";"%char) = true.
Proof.
  destruct c as [[] [] [] [] [] [] [] []]; vm_compute; congruence.
Qed.

Lemma base64_char_not_colon c : is_base64_char c = true -> not_colon c = true.
Proof.
  destruct c as [[] [] [] [] [] [] [] []]; vm_compute; congruence.
Qed.

Lemma all_chars_impl (p q : ascii -> bool) s :
  (forall c, p c = true -> q c = true) ->
  all_chars p s = true -> all_chars q s = true.
Proof.
  intros Hpq. induction s as [|c s IH]; cbn [all_chars]; [reflexivity|].
  intros [Hc Hs]%andb_true_iff. rewrite (Hpq c Hc), (IH Hs). reflexivity.
Qed.

(** A string without a colon has no occurrence of a pattern with one. *)
Lemma no_colon_no_occurrence s pat :
  all_chars not_colon s = true -> all_chars not_colon pat = false ->
  includes s pat = false.
Proof.
  intros Hs Hpat. apply includes_not_occurs. intros (a & b & ->).
  rewrite !all_chars_app in Hs.
  apply andb_true_iff in Hs as [_ [Hp _]%andb_true_iff]. congruence.
Qed.

Lemma prefix_before_stop pat t c r :
  all_chars (fun x => negb (Ascii.eqb x c)) pat = true ->
  String.prefix pat (t +:+ String c r) = String.prefix pat t.
Proof.
  revert pat. induction t as [|a t IH]; intros [|x pat] Hpat; try reflexivity.
  - rewrite append_empty. cbn [String.prefix].
    cbn [all_chars] in Hpat. apply andb_true_iff in Hpat as [Hx _].
    destruct (ascii_dec x c) as [->|]; [|reflexivity].
    rewrite Ascii.eqb_refl in Hx. discriminate Hx.
  - rewrite append_cons. cbn [String.prefix].
    cbn [all_chars] in Hpat. apply andb_true_iff in Hpat as [_ Hpat].
    destruct (ascii_dec x a); [apply IH; exact Hpat | reflexivity].
Qed.

(** In a data URI with a word subtype and a base64 payload, a token
    [data:image/<name>] occurs exactly when the subtype starts with
    [<name>]. *)
Lemma includes_data_uri subtype payload name :
  all_chars is_word_char subtype = true ->
  all_chars is_base64_char payload = true ->
  all_chars is_word_char name = true ->
  includes (data_uri subtype payload) ("data:image/" +:+ name) =
    String.prefix name subtype.
Proof.
  intros Hsub Hpay Hname. unfold data_uri.
  set (rest := subtype +:+ ";base64," +:+ payload).
  assert (Hrest : includes rest ("data:image/" +:+ name) = false).
  { apply no_colon_no_occurrence; [|reflexivity].
    unfold rest. rewrite !all_chars_app.
    rewrite (all_chars_impl _ _ _ word_char_not_colon Hsub).
    rewrite (all_chars_impl _ _ _ base64_char_not_colon Hpay). reflexivity. }
  change ("data:image/" +:+ rest) with
    (String "d" (String "a" (String "t" (String "a" (String ":" (String "i"
      (String "m" (String "a" (String "g" (String "e" (String "/" rest))))))))))).
  change ("data:image/" +:+ name) with
    (String "d" (String "a" (String "t" (String "a" (String ":" (String "i"
      (String "m" (String "a" (String "g" (String "e" (String "/" name))))))))))) in *.
  cbn [includes]. rewrite Hrest.
  cbn [String.prefix].
  repeat match goal with
         | |- context [ascii_dec ?a ?b] =>
             destruct (ascii_dec a b) as [E|E];
             [try discriminate E | try (exfalso; apply E; reflexivity)]
         end.
  rewrite !orb_false_r.
  unfold rest.
  change (";base64," +:+ payload) with (String ";"%char ("base64," +:+ payload)).
  apply prefix_before_stop.
  exact (all_chars_impl _ _ _ word_char_not_semicolon Hname).
Qed.

(** For such a data URI the image type follows the declared subtype. *)
Lemma mimeType_data_uri subtype payload :
  all_chars is_word_char subtype = true ->
  all_chars is_base64_char payload = true ->
  mimeType (data_uri subtype payload) =
    if String.prefix "png" subtype then Png
    else if String.prefix "gif" subtype then Gif
    else if String.prefix "webp" subtype then Webp
    else Jpeg.
Proof.
  intros Hsub Hpay. unfold mimeType.
  change "data:image/png" with ("data:image/" +:+ "png").
  change "data:image/gif" with ("data:image/" +:+ "gif").
  change "data:image/webp" with ("data:image/" +:+ "webp").
  rewrite !includes_data_uri by (assumption || reflexivity).
  reflexivity.
Qed.

Section DataUri.

Variable remote : oracle.

(** X19. Posting with a well-formed data URI
    [data:image/<subtype>;base64,<payload>] (word subtype, base64 payload):
    the upload gets the payload without the header, and its type is read
    from the subtype alone: png, gif or webp when the subtype starts with
    that name, jpeg for every other subtype. *)
Theorem postTweet_data_uri this text subtype payload w c w1 :
  getClient this w = (Normal c, w1) ->
  subtype <> EmptyString ->
  all_chars is_word_char subtype = true ->
  all_chars is_base64_char payload = true ->
  exists m rest,
    calls (snd (postTweet remote this text (Some (data_uri subtype payload)) w)) =
      calls w ++
      (c, v2_uploadMedia (Buffer_from payload "base64") m "tweet_image") :: rest /\
    (String.prefix "png" subtype = true -> m = Png) /\
    (String.prefix "png" subtype = false ->
     String.prefix "gif" subtype = true -> m = Gif) /\
    (String.prefix "png" subtype = false ->
     String.prefix "gif" subtype = false ->
     String.prefix "webp" subtype = true -> m = Webp) /\
    (String.prefix "png" subtype = false ->
     String.prefix "gif" subtype = false ->
     String.prefix "webp" subtype = false -> m = Jpeg).
Proof.
  intros Hgc Hne Hsub Hpay.
  destruct (getClient_frame _ _ _ _ Hgc) as (Hfr & _).
  assert (Ht : truthy_string (Some (data_uri subtype payload)) = true)
    by reflexivity.
  exists (mimeType (data_uri subtype payload)).
  unfold postTweet, async, try_catch, bind, return_error, ret.
  rewrite Hgc, Ht. cbv beta iota.
  rewrite (strip_data_uri_payload subtype payload Hne Hsub).
  rewrite (mimeType_data_uri subtype payload Hsub Hpay).
  repeat run_step; cbn; rewrite ?Hfr, <- ?app_assoc;
    eexists; (split; [reflexivity|]);
    split_and!; intros; repeat match goal with
                               | H : String.prefix _ _ = _ |- _ => rewrite H
                               end; reflexivity.
Qed.

End DataUri.

(** ** The further properties at sample inputs *)

Lemma constructed_client_has_credentials_witness :
  services (started credentials) !! 0%nat = Some {| client := None |} /\
  getClient 0%nat (started credentials) =
    (Normal (first_client credentials), snd (getClient 0%nat (started credentials))) /\
  exists key secret token token_secret,
    process_env (started credentials) !! "TWITTER_API_KEY" = Some key /\
    process_env (started credentials) !! "TWITTER_API_KEY_SECRET" = Some secret /\
    process_env (started credentials) !! "TWITTER_ACCESS_TOKEN" = Some token /\
    process_env (started credentials) !! "TWITTER_ACCESS_TOKEN_SECRET" =
      Some token_secret /\
    key <> EmptyString /\ secret <> EmptyString /\
    token <> EmptyString /\ token_secret <> EmptyString /\
    first_client credentials =
      {| client_id := length (constructed (started credentials));
         appKey := Some key; appSecret := Some secret;
         accessToken := Some token; accessSecret := Some token_secret |} /\
    constructed (snd (getClient 0%nat (started credentials))) =
      constructed (started credentials) ++ [first_client credentials].
Proof.
  split; [reflexivity|]. split; [vm_compute; reflexivity|].
  apply (constructed_client_has_credentials 0%nat (started credentials)).
  - reflexivity.
  - vm_compute; reflexivity.
Defined.

Lemma configuration_failure_is_retried_witness :
  services (started three_credentials) !! 0%nat = Some {| client := None |} /\
  configured (process_env (started three_credentials)) = false /\
  configured credentials = true /\
  fst (invoke remote_up 0%nat (GetTweet "1") (started three_credentials)) =
    Fulfilled configuration_error.
Proof.
  split; [reflexivity|]. split; [vm_compute; reflexivity|].
  split; [vm_compute; reflexivity|].
  apply (configuration_failure_is_retried remote_up 0%nat (GetTweet "1")
           (LikeTweet "9") (started three_credentials) credentials).
  - reflexivity.
  - vm_compute; reflexivity.
  - vm_compute; reflexivity.
Defined.

Lemma session_without_credentials_witness :
  configured three_credentials = false /\
  calls (snd (session remote_up [GetTweet "1"; LikeTweet "9"]
                (boot three_credentials))) = [].
Proof.
  split; [vm_compute; reflexivity|].
  apply (session_without_credentials remote_up [GetTweet "1"; LikeTweet "9"]
           three_credentials
           (fst (session remote_up [GetTweet "1"; LikeTweet "9"]
                   (boot three_credentials)))).
  - vm_compute; reflexivity.
  - apply surjective_pairing.
Defined.

Lemma environment_ignored_once_client_exists_witness :
  services (snd (serve remote_up (GetTweet "1") (boot credentials))) !! 0%nat =
    Some {| client := Some (first_client credentials) |} /\
  invoke remote_up 0%nat (LikeTweet "9")
    (set_process_env ∅ (snd (serve remote_up (GetTweet "1") (boot credentials)))) =
  (fst (invoke remote_up 0%nat (LikeTweet "9")
          (snd (serve remote_up (GetTweet "1") (boot credentials)))),
   set_process_env ∅
     (snd (invoke remote_up 0%nat (LikeTweet "9")
             (snd (serve remote_up (GetTweet "1") (boot credentials)))))).
Proof.
  split; [vm_compute; reflexivity|].
  apply (environment_ignored_once_client_exists remote_up 0%nat (LikeTweet "9")
           (snd (serve remote_up (GetTweet "1") (boot credentials)))
           (first_client credentials) ∅).
  vm_compute; reflexivity.
Defined.




Lemma me_id_is_forwarded_witness :
  remote_up (calls (started credentials)) (first_client credentials) v2_me =
    Fulfilled (VObject [("data", VObject [("id", VString "42")])]) /\
  calls (snd (invoke remote_up 0%nat (UnfollowUser "7") (started credentials))) =
    calls (started credentials) ++
    [(first_client credentials, v2_me);
     (first_client credentials, v2_unfollow (VString "42") "7")].
Proof.
  split; [reflexivity|].
  apply (me_id_is_forwarded remote_up 0%nat (UnfollowUser "7")
           (started credentials) (first_client credentials)
           (snd (getClient 0%nat (started credentials)))
           (VObject [("data", VObject [("id", VString "42")])])
           (VObject [("id", VString "42")]) (VString "42")).
  - vm_compute; reflexivity.
  - reflexivity.
  - reflexivity.
  - reflexivity.
  - reflexivity.
Defined.

Lemma likeTweet_result_witness :
  remote_up (calls (started credentials) ++ [(first_client credentials, v2_me)])
    (first_client credentials) (v2_like (VString "42") "9") =
    Fulfilled (VObject [("data", VObject [("liked", VBool true)])]) /\
  fst (likeTweet remote_up 0%nat "9" (started credentials)) =
    Fulfilled (VObject [("liked", VBool true)]).
Proof.
  split; [reflexivity|].
  apply (likeTweet_result remote_up 0%nat "9" (started credentials)
           (first_client credentials)
           (snd (getClient 0%nat (started credentials)))
           (VObject [("data", VObject [("id", VString "42")])])
           (VObject [("id", VString "42")]) (VString "42")
           (VObject [("data", VObject [("liked", VBool true)])])
           (VObject [("liked", VBool true)]) (VBool true)).
  - vm_compute; reflexivity.
  - reflexivity.
  - reflexivity.
  - reflexivity.
  - reflexivity.
  - reflexivity.
  - reflexivity.
Defined.

Lemma postTweet_media_id_witness :
  "data:image/gif;base64,R0lGODlh" <> EmptyString /\
  postTweet remote_upload_fails 0%nat "hello"
    (Some "data:image/gif;base64,R0lGODlh") (started credentials) =
    (Fulfilled request_failed,
     set_calls
       (calls (started credentials) ++
        [(first_client credentials,
          v2_uploadMedia
            (Buffer_from (strip_data_uri "data:image/gif;base64,R0lGODlh") "base64")
            (mimeType "data:image/gif;base64,R0lGODlh") "tweet_image")])
       (snd (getClient 0%nat (started credentials)))).
Proof.
  split; [discriminate|].
  apply (postTweet_media_id remote_upload_fails 0%nat "hello"
           "data:image/gif;base64,R0lGODlh" (started credentials)
           (first_client credentials)
           (snd (getClient 0%nat (started credentials)))).
  - vm_compute; reflexivity.
  - discriminate.
  - reflexivity.
Defined.

Lemma postTweet_text_only_witness :
  getClient 0%nat (started credentials) =
    (Normal (first_client credentials), snd (getClient 0%nat (started credentials))) /\
  calls (snd (postTweet remote_up 0%nat "hello" (Some EmptyString)
                (started credentials))) =
    calls (started credentials) ++
    [(first_client credentials, v2_tweet (VString "hello"))].
Proof.
  split; [vm_compute; reflexivity|].
  apply (postTweet_text_only remote_up 0%nat "hello" (Some EmptyString)
           (started credentials) (first_client credentials)
           (snd (getClient 0%nat (started credentials)))).
  - vm_compute; reflexivity.
  - right; reflexivity.
Defined.

Lemma getUserTweets_exclude_witness :
  getClient 0%nat (started credentials) =
    (Normal (first_client credentials), snd (getClient 0%nat (started credentials))) /\
  calls (snd (getUserTweets remote_up 0%nat "u" None (Some []) None
                (started credentials))) =
    calls (started credentials) ++
    [(first_client credentials, v2_userTimeline "u" [] 50 None)].
Proof.
  split; [vm_compute; reflexivity|].
  destruct (getUserTweets_exclude remote_up 0%nat "u" None None
              (started credentials) (first_client credentials)
              (snd (getClient 0%nat (started credentials)))) as [Hgiven _].
  - vm_compute; reflexivity.
  - exact (Hgiven []).
Defined.

Lemma getUserTweets_without_data_witness :
  remote_empty (calls (started credentials)) (first_client credentials)
    (v2_userTimeline "u" (nullish_or None ["retweets"; "replies"]) 50 None) =
    Fulfilled (VObject []) /\
  get_prop (VObject []) "data" = Normal VUndefined /\
  fst (getUserTweets remote_empty 0%nat "u" None None None (started credentials)) =
    Fulfilled
      (VString ("{" +:+ quote "message" +:+ ":" +:+
                quote "Tweets fetched successfully" +:+ "}")).
Proof.
  split; [reflexivity|]. split; [reflexivity|].
  rewrite (getUserTweets_without_data remote_empty 0%nat "u" None None None
             (started credentials) (first_client credentials)
             (snd (getClient 0%nat (started credentials))) (VObject [])).
  - reflexivity.
  - vm_compute; reflexivity.
  - reflexivity.
  - reflexivity.
Defined.

Lemma strip_data_uri_payload_witness :
  "png" <> EmptyString /\ all_chars is_word_char "png" = true /\
  strip_data_uri (data_uri "png" "iVBORw0KGgo=") = "iVBORw0KGgo=".
Proof.
  split; [discriminate|]. split; [reflexivity|].
  apply (strip_data_uri_payload "png" "iVBORw0KGgo="); [discriminate | reflexivity].
Defined.

Lemma postTweet_data_uri_witness :
  all_chars is_word_char "jpeg" = true /\
  all_chars is_base64_char "/9j/4AAQSkZJRg==" = true /\
  exists m rest,
    calls (snd (postTweet remote_up 0%nat "hello"
                  (Some (data_uri "jpeg" "/9j/4AAQSkZJRg==")) (started credentials))) =
      calls (started credentials) ++
      (first_client credentials,
       v2_uploadMedia (Buffer_from "/9j/4AAQSkZJRg==" "base64") m "tweet_image")
      :: rest /\
    m = Jpeg.
Proof.
  split; [reflexivity|]. split; [reflexivity|].
  destruct (postTweet_data_uri remote_up 0%nat "hello" "jpeg" "/9j/4AAQSkZJRg=="
              (started credentials) (first_client credentials)
              (snd (getClient 0%nat (started credentials))))
    as (m & rest & Hcalls & _ & _ & _ & Hjpeg).
  - vm_compute; reflexivity.
  - discriminate.
  - reflexivity.
  - reflexivity.
  - exists m, rest. split; [exact Hcalls|]. apply Hjpeg; reflexivity.
Defined.
